(** * launch-node-app: the project generator of [src/index.js]

    The script asks seven questions, creates a project directory, runs
    [npm init -y], rewrites the scripts of the manifest, starts two
    dependency installations and then writes the directory tree and the
    boilerplate files.  This development embeds the script as a state
    transformer over a small file-system state and proves properties of
    the files, directories and install commands it produces.

    What the embedding leaves out: console output, the layout of the JSON
    text of [package.json] (the manifest object that is written is kept
    instead), failures of [fs] calls (permissions, full disk), and the
    normalisation done by [path.join] (a path is a base directory followed
    by the segments joined to it).  The trace of a run holds the [fs]
    calls and the [npm init] process; the version queries and the install
    command of an installation are kept with the job that starts them,
    not in the trace. *)

From Stdlib Require Import Ascii.
From stdpp Require Import gmap strings list fin_maps.

(** ** Text helpers *)

(** The double quote and the line feed, the two characters a literal of
    this file cannot hold directly. *)
Definition dq : string := String "034"%char EmptyString.
Definition nl : string := String "010"%char EmptyString.

(** [q s] is [s] between double quotes. *)
Definition q (s : string) : string := dq +:+ s +:+ dq.

(** [Array.prototype.join]. *)
Fixpoint join (sep : string) (xs : list string) : string :=
  match xs with
  | [] => ""
  | [x] => x
  | x :: rest => x +:+ sep +:+ join sep rest
  end.

(** A multi-line template literal, one list element per source line. *)
Definition lines (ls : list string) : string := join nl ls.

(** [s.startsWith(p)]. *)
Fixpoint startsWith (p s : string) : bool :=
  match p, s with
  | EmptyString, _ => true
  | String a p', String b s' => if decide (a = b) then startsWith p' s' else false
  | String _ _, EmptyString => false
  end.

(** [hay.includes(needle)]. *)
Fixpoint includes (needle hay : string) : bool :=
  startsWith needle hay ||
  match hay with
  | EmptyString => false
  | String _ rest => includes needle rest
  end.

(** [String.prototype.trim], for the ASCII white space and line
    terminators (tab, LF, VT, FF, CR, space). *)
Fixpoint trimStart (s : string) : string :=
  match s with
  | String c rest => if Ascii.is_space c then trimStart rest else s
  | EmptyString => EmptyString
  end.

Fixpoint trimEnd (s : string) : string :=
  match s with
  | EmptyString => EmptyString
  | String c rest =>
      match trimEnd rest with
      | EmptyString => if Ascii.is_space c then EmptyString else String c EmptyString
      | rest' => String c rest'
      end
  end.

Definition trim (s : string) : string := trimEnd (trimStart s).

(** ** Data model *)

(** The two choices of the [language] question. *)
Inductive Language := JavaScript | TypeScript.

(** [language === "TypeScript"]. *)
Definition isTypeScript (l : Language) : bool :=
  match l with TypeScript => true | JavaScript => false end.

(** The answers object returned by [inquirer.prompt(questions)]. *)
Record AnswerSet := {
  projectName : string;
  language : Language;
  enableCORS : bool;
  basicErrorHandler : bool;
  envFile : bool;
  morganLogging : bool;
  docker : bool
}.

(** A path: [process.cwd()] followed by the segments [path.join] added. *)
Inductive path :=
| Base (dir : string)
| Join (parent : path) (name : string).

Notation "d </> n" := (Join d n) (at level 40, left associativity).

#[global] Instance path_eq_dec : EqDecision path.
Proof. solve_decision. Defined.

(** [path.dirname] and [path.basename]. *)
Definition dirname (p : path) : option path :=
  match p with Base _ => None | Join d _ => Some d end.

Definition basename (p : path) : string :=
  match p with Base d => d | Join _ n => n end.

(** The parsed [package.json]: its [scripts] object ([None] when the key is
    missing) and the other fields, which the script never touches. *)
Record Manifest := {
  scripts : option (gmap string string);
  otherFields : string
}.

(** What [fs.writeFileSync] is given: a text, or the manifest object that
    [JSON.stringify(packageJson, null, 2)] serialises. *)
Inductive FileContent :=
| Text (s : string)
| Json (m : Manifest).

(** A child process started with [exec]: the command line and its [cwd]. *)
Record ExecCall := { cmdline : string; workdir : path }.

(** The calls that change the world, in program order. *)
Inductive Event :=
| MkdirSync (p : path)
| WriteFileSync (p : path) (c : FileContent)
| Exec (c : ExecCall).

(** A promise once settled. *)
Inductive Promise (A : Type) :=
| Fulfilled (a : A)
| Rejected (reason : string).
Arguments Fulfilled {A} a.
Arguments Rejected {A} reason.

(** What the run cannot decide by itself. *)
Record World := {
  cwd : string;
  (** [fs.existsSync] before the run started *)
  existsBefore : path -> bool;
  (** [npm init -y]: [None] when [exec] reports an error, otherwise the
      manifest read back from [package.json] *)
  npmInit : option Manifest;
  (** [execPromise(cmd)]: the standard output, or a rejection *)
  shell : string -> Promise string
}.

(** ** Promises: [await], [try]/[catch], [Promise.all] *)

Definition await {A B} (p : Promise A) (k : A -> Promise B) : Promise B :=
  match p with
  | Fulfilled a => k a
  | Rejected e => Rejected e
  end.

Definition tryCatch {A} (body : Promise A) (handler : string -> Promise A) : Promise A :=
  match body with
  | Fulfilled a => Fulfilled a
  | Rejected e => handler e
  end.

(** [Promise.all]: fulfilled with every value when all are fulfilled,
    rejected as soon as one is. *)
Fixpoint Promise_all {A} (ps : list (Promise A)) : Promise (list A) :=
  match ps with
  | [] => Fulfilled []
  | p :: rest =>
      await p (fun a => await (Promise_all rest) (fun rs => Fulfilled (a :: rs)))
  end.

(** ** Version resolver and dependency installer *)

Definition execPromise (w : World) (cmd : string) : Promise string := shell w cmd.

(** [getLatestPackageVersion]: the trimmed output of [npm show], or [null]
    ([None]) when the query fails. *)
Definition getLatestPackageVersion (w : World) (packageName : string)
  : Promise (option string) :=
  tryCatch
    (await (execPromise w ("npm show " +:+ packageName +:+ " version"))
       (fun stdout => Fulfilled (Some (trim stdout))))
    (fun error => Fulfilled None).

(** A version inside a template literal: [null] prints as the text null. *)
Definition showVersion (version : option string) : string :=
  match version with
  | Some v => v
  | None => "null"
  end.

Definition depVersion (w : World) (dep : string) : Promise string :=
  await (getLatestPackageVersion w dep)
    (fun version => Fulfilled (dep +:+ "@" +:+ showVersion version)).

Definition installCommand (isDev : bool) (depList : string) : string :=
  "npm install " +:+ (if isDev then "-D" else "") +:+ " " +:+ depList.

(** [installDependencies]: the [exec] call it ends with. *)
Definition installDependencies (w : World) (dependencies : list string)
    (projectDir : path) (isDev : bool) : Promise ExecCall :=
  await (Promise_all (map (depVersion w) dependencies)) (fun depVersions =>
    let depList := join " " depVersions in
    Fulfilled {| cmdline := installCommand isDev depList; workdir := projectDir |}).

(** ** The state of a run *)

(** An installation started without [await]: what it was asked to install
    and how it ends. *)
Record Job := {
  packages : list string;
  dev : bool;
  outcome : Promise ExecCall
}.

Record Sys := {
  fs : path -> bool;
  trace : list Event;
  jobs : list Job
}.

Definition Cmd := Sys -> Sys.

Definition skip : Cmd := fun s => s.

Definition seq (c1 c2 : Cmd) : Cmd := fun s => c2 (c1 s).

Notation "c1 ;; c2" := (seq c1 c2) (at level 100, c2 at level 200, right associativity).

Definition when (b : bool) (c : Cmd) : Cmd := if b then c else skip.

Definition present (p : path) (f : path -> bool) : path -> bool :=
  fun x => if decide (x = p) then true else f x.

Definition emit (e : Event) (s : Sys) : Sys :=
  {| fs := fs s; trace := trace s ++ [e]; jobs := jobs s |}.

Definition touch (p : path) (s : Sys) : Sys :=
  {| fs := present p (fs s); trace := trace s; jobs := jobs s |}.

Definition mkdirSync (p : path) : Cmd := fun s => touch p (emit (MkdirSync p) s).

Definition writeFileSync (p : path) (c : FileContent) : Cmd :=
  fun s => touch p (emit (WriteFileSync p c) s).

(** [if (!fs.existsSync(p)) { c }]. *)
Definition unlessExists (p : path) (c : Cmd) : Cmd :=
  fun s => if fs s p then s else c s.

Definition exec (cmd : string) (dir : path) : Cmd :=
  emit (Exec {| cmdline := cmd; workdir := dir |}).

Definition start (w : World) (dependencies : list string) (projectDir : path)
    (isDev : bool) : Cmd := fun s =>
  {| fs := fs s; trace := trace s;
     jobs := jobs s ++ [ {| packages := dependencies; dev := isDev;
                            outcome := installDependencies w dependencies projectDir isDev |} ] |}.

(** [list.forEach(f)]. *)
Fixpoint forEach {A} (xs : list A) (f : A -> Cmd) : Cmd :=
  match xs with
  | [] => skip
  | x :: rest => f x ;; forEach rest f
  end.

Definition initial (w : World) : Sys :=
  {| fs := existsBefore w; trace := []; jobs := [] |}.

(** ** The generator: dependencies and file contents *)

(** The scripts added to the manifest:
    [{...packageJson.scripts, dev: ..., watch: ...}]. *)
Definition spread (o : option (gmap string string)) : gmap string string :=
  match o with
  | Some m => m
  | None => ∅
  end.

Definition withScripts (l : Language) (packageJson : Manifest) : Manifest :=
  match l with
  | TypeScript =>
      {| scripts := Some (<["watch" := "tsc -w"]>
                          (<["dev" := "nodemon src/app.ts"]> (spread (scripts packageJson))));
         otherFields := otherFields packageJson |}
  | JavaScript =>
      {| scripts := Some (<["watch" := ""]>
                          (<["dev" := "nodemon src/app.js"]> (spread (scripts packageJson))));
         otherFields := otherFields packageJson |}
  end.

Definition dependencies (answers : AnswerSet) : list string :=
  let dependencies := ["express"] in
  let dependencies :=
    if enableCORS answers then dependencies ++ ["cors"] else dependencies in
  let dependencies :=
    if morganLogging answers then dependencies ++ ["morgan"] else dependencies in
  let dependencies :=
    if envFile answers then dependencies ++ ["dotenv"] else dependencies in
  dependencies.

Definition devDependencies (answers : AnswerSet) : list string :=
  let devDependencies := ["nodemon"] in
  if isTypeScript (language answers) then
    let devDependencies :=
      devDependencies ++ ["typescript"; "@types/express"; "@types/node"; "ts-node"] in
    let devDependencies :=
      if enableCORS answers then devDependencies ++ ["@types/cors"] else devDependencies in
    let devDependencies :=
      if morganLogging answers then devDependencies ++ ["@types/morgan"] else devDependencies in
    devDependencies
  else devDependencies.

Definition folders : list string :=
  ["controllers"; "middlewares"; "models"; "routes"; "tests"; "lib"].

Definition errorHandlerContent : string :=
  lines
    [ "export class ErrorHandler extends Error {";
      "  public statusCode: number;";
      "";
      "  constructor(message: string, statusCode: number = 500) {";
      "    super(message);";
      "    this.statusCode = statusCode;";
      "    Error.captureStackTrace(this, this.constructor);";
      "  }";
      "}" ].

(** The first value of [appSetup]. *)
Definition appSetup0 : string :=
  lines
    [ "";
      "    const app = express();";
      "    app.use(express.json());";
      "    " ].

Definition remainingSetup : string :=
  lines
    [ "";
      "    const envMode = process.env.NODE_ENV || 'development';  // Default to 'development'";
      "    ";
      "    // Define the port from the environment variable or default to 3000";
      "    const port = process.env.PORT || 3000;";
      "    ";
      "    // Start the server on the specified port";
      "    app.listen(port, () => {";
      "      console.log(`Server running in ${envMode} mode on port ${port}`);";
      "    });";
      "    ";
      "    app.get('/', (req, res) => {";
      "      res.send('Hello World');";
      "    });";
      "    " ].

Definition appFileContent (enableCORS morganLogging envFile : bool)
    (language : Language) : string :=
  let imports := "" in
  let imports :=
    if isTypeScript language then
      let imports := imports +:+ "import express from 'express';" +:+ nl in
      let imports :=
        if envFile then imports +:+ "import dotenv from 'dotenv';" +:+ nl else imports in
      let imports :=
        if enableCORS then imports +:+ "import cors from 'cors';" +:+ nl else imports in
      let imports :=
        if morganLogging then imports +:+ "import morgan from 'morgan';" +:+ nl else imports in
      imports
    else
      let imports := imports +:+ "const express = require('express');" +:+ nl in
      let imports :=
        if envFile then imports +:+ "require('dotenv').config();" +:+ nl else imports in
      let imports :=
        if enableCORS then imports +:+ "const cors = require('cors');" +:+ nl else imports in
      let imports :=
        if morganLogging then imports +:+ "const morgan = require('morgan');" +:+ nl else imports in
      imports in
  let appSetup := appSetup0 in
  let appSetup :=
    if isTypeScript language && envFile then
      "dotenv.config(); // Load environment variables from .env file" +:+ nl +:+ appSetup
    else appSetup in
  let appSetup :=
    if enableCORS then appSetup +:+ "app.use(cors()); // Enable CORS" +:+ nl else appSetup in
  let appSetup :=
    if morganLogging then
      appSetup +:+ "app.use(morgan('dev')); // Use Morgan for logging" +:+ nl
    else appSetup in
  if isTypeScript language then
    imports +:+ appSetup +:+ remainingSetup +:+ "export { app, envMode }; export default app;"
  else
    imports +:+ appSetup +:+ remainingSetup +:+ "module.exports = { app, envMode };".

Definition envContent : string :=
  lines
    [ "PORT=3000";
      "NODE_ENV=development";
      "" ].

Definition tsconfigContent : string :=
  lines
    [ "{";
      "  " +:+ q "compilerOptions" +:+ ": {";
      "    " +:+ q "target" +:+ ": " +:+ q "ES6" +:+ ",";
      "    " +:+ q "module" +:+ ": " +:+ q "commonjs" +:+ ",";
      "    " +:+ q "outDir" +:+ ": " +:+ q "./dist" +:+ ",";
      "    " +:+ q "rootDir" +:+ ": " +:+ q "./src" +:+ ",";
      "    " +:+ q "strict" +:+ ": true,";
      "    " +:+ q "esModuleInterop" +:+ ": true";
      "  },";
      "  " +:+ q "exclude" +:+ ": [" +:+ q "node_modules" +:+ "]";
      "}" ].

Definition errorMiddlewareContent : string :=
  lines
    [ "import { NextFunction, Request, Response } from 'express';";
      "import { ErrorHandler } from '../utils/errorHandler'; ";
      "import { envMode } from '../app'; ";
      "";
      "const errorMiddleware = (err: ErrorHandler, req: Request, res: Response, next: NextFunction) => {";
      "    err.message = err.message || 'Internal Server Error';";
      "    err.statusCode = err.statusCode || 500;";
      "";
      "    const response: {";
      "        success: boolean;";
      "        message: string;";
      "        error?: ErrorHandler;";
      "    } = {";
      "        success: false,";
      "        message: err.message,";
      "    };";
      "";
      "    // Add the error object to the response if in development mode";
      "    if (envMode === 'development') {";
      "        response.error = err;";
      "    }";
      "";
      "    // Send the structured error response";
      "    res.status(err.statusCode).json(response);";
      "};";
      "";
      "export default errorMiddleware;" ].

Definition dockerfileContent (envFile : bool) : string :=
  lines
    [ "";
      "FROM node:20";
      "";
      "# Create and set the working directory";
      "WORKDIR /usr/src/app";
      "";
      "# Copy package.json and package-lock.json to the working directory";
      "COPY package*.json ./";
      "";
      "# Install dependencies";
      "RUN npm install";
      "";
      "# Copy the rest of the application code to the working directory";
      "COPY . .";
      "";
      "# Set the environment variable if using dotenv";
      (if envFile then "ENV NODE_ENV=production" else "");
      "";
      "# Expose the application port";
      "EXPOSE 3000";
      "";
      "# Define the command to run the application";
      "CMD [" +:+ q "npm" +:+ ", " +:+ q "run" +:+ ", " +:+ q "dev" +:+ "]";
      "" ].

(** ** The script *)

(** The callback of [exec("npm init -y")] once the manifest is there. *)
Definition generate (w : World) (answers : AnswerSet) (projectDir : path)
    (packageJson : Manifest) : Cmd :=
  let packageJsonPath := projectDir </> "package.json" in
  let packageJson := withScripts (language answers) packageJson in
  writeFileSync packageJsonPath (Json packageJson) ;;
  start w (dependencies answers) projectDir false ;;
  start w (devDependencies answers) projectDir true ;;
  let srcDir := projectDir </> "src" in
  let utilsDir := srcDir </> "utils" in
  unlessExists srcDir (mkdirSync srcDir) ;;
  forEach folders (fun folder =>
    let folderPath := srcDir </> folder in
    unlessExists folderPath (mkdirSync folderPath)) ;;
  unlessExists utilsDir (mkdirSync utilsDir) ;;
  writeFileSync (utilsDir </> "errorHandler.ts") (Text errorHandlerContent) ;;
  let appFilePath :=
    if isTypeScript (language answers) then srcDir </> "app.ts" else srcDir </> "app.js" in
  writeFileSync appFilePath
    (Text (appFileContent (enableCORS answers) (morganLogging answers)
             (envFile answers) (language answers))) ;;
  when (envFile answers)
    (let envFilePath := projectDir </> ".env" in
     writeFileSync envFilePath (Text envContent)) ;;
  when (isTypeScript (language answers))
    (let tsconfigFilePath := projectDir </> "tsconfig.json" in
     writeFileSync tsconfigFilePath (Text tsconfigContent)) ;;
  let errorMiddlewarePath :=
    if isTypeScript (language answers)
    then srcDir </> "middlewares" </> "error.ts"
    else srcDir </> "middlewares" </> "error.js" in
  writeFileSync errorMiddlewarePath (Text errorMiddlewareContent) ;;
  when (docker answers)
    (let dockerFilePath := projectDir </> "Dockerfile" in
     writeFileSync dockerFilePath (Text (dockerfileContent (envFile answers)))).

(** The body of [inquirer.prompt(questions).then(...)]. *)
Definition script (w : World) (answers : AnswerSet) : Cmd :=
  let projectDir := Base (cwd w) </> projectName answers in
  unlessExists projectDir (mkdirSync projectDir) ;;
  exec "npm init -y" projectDir ;;
  match npmInit w with
  | None => skip
  | Some packageJson => generate w answers projectDir packageJson
  end.

Definition main (w : World) (answers : AnswerSet) : Sys :=
  script w answers (initial w).

(** ** Reading a run *)

Definition projectDirOf (w : World) (answers : AnswerSet) : path :=
  Base (cwd w) </> projectName answers.

(** The files written, in order. *)
Fixpoint writes (t : list Event) : list (path * FileContent) :=
  match t with
  | [] => []
  | WriteFileSync p c :: rest => (p, c) :: writes rest
  | _ :: rest => writes rest
  end.

(** The directories created, in order. *)
Fixpoint mkdirs (t : list Event) : list path :=
  match t with
  | [] => []
  | MkdirSync p :: rest => p :: mkdirs rest
  | _ :: rest => mkdirs rest
  end.

(** The generated texts with the name of their file; the manifest, whose
    other fields come from [npm init], is not one of them. *)
Fixpoint texts (ws : list (path * FileContent)) : list (string * string) :=
  match ws with
  | [] => []
  | (p, Text s) :: rest => (basename p, s) :: texts rest
  | (_, Json _) :: rest => texts rest
  end.

(** The writes to files called [n], in order. *)
Definition writesNamed (n : string) (t : list Event) : list (path * FileContent) :=
  List.filter (fun pc => bool_decide (basename (fst pc) = n)) (writes t).

(** The guarded creation [if (!fs.existsSync(p)) fs.mkdirSync(p)] for a
    path nothing touched before: it creates [p] unless [p] was there when
    the run started. *)
Definition ensure (w : World) (p : path) : list Event :=
  if existsBefore w p then [] else [MkdirSync p].

(** The events of [generate], spelled out. *)
Definition generated (w : World) (answers : AnswerSet) (projectDir : path)
    (packageJson : Manifest) : list Event :=
  let srcDir := projectDir </> "src" in
  [WriteFileSync (projectDir </> "package.json")
     (Json (withScripts (language answers) packageJson))] ++
  ensure w srcDir ++
  ensure w (srcDir </> "controllers") ++
  ensure w (srcDir </> "middlewares") ++
  ensure w (srcDir </> "models") ++
  ensure w (srcDir </> "routes") ++
  ensure w (srcDir </> "tests") ++
  ensure w (srcDir </> "lib") ++
  ensure w (srcDir </> "utils") ++
  [WriteFileSync (srcDir </> "utils" </> "errorHandler.ts") (Text errorHandlerContent);
   WriteFileSync
     (if isTypeScript (language answers) then srcDir </> "app.ts" else srcDir </> "app.js")
     (Text (appFileContent (enableCORS answers) (morganLogging answers)
              (envFile answers) (language answers)))] ++
  (if envFile answers
   then [WriteFileSync (projectDir </> ".env") (Text envContent)] else []) ++
  (if isTypeScript (language answers)
   then [WriteFileSync (projectDir </> "tsconfig.json") (Text tsconfigContent)] else []) ++
  [WriteFileSync
     (if isTypeScript (language answers)
      then srcDir </> "middlewares" </> "error.ts"
      else srcDir </> "middlewares" </> "error.js")
     (Text errorMiddlewareContent)] ++
  (if docker answers
   then [WriteFileSync (projectDir </> "Dockerfile")
           (Text (dockerfileContent (envFile answers)))] else []).

(** The two installations [generate] starts. *)
Definition started (w : World) (answers : AnswerSet) (projectDir : path) : list Job :=
  [ {| packages := dependencies answers; dev := false;
       outcome := installDependencies w (dependencies answers) projectDir false |};
    {| packages := devDependencies answers; dev := true;
       outcome := installDependencies w (devDependencies answers) projectDir true |} ].

(** [s] is a state the run can be in after the events [t]: its file system
    is the initial one plus the paths [touched]. *)
Record Reaches (w : World) (s : Sys) (t : list Event) (touched : list path)
    (js : list Job) : Prop := {
  reach_trace : trace s = t;
  reach_jobs : jobs s = js;
  reach_fs : forall p, fs s p = existsBefore w p || bool_decide (p ∈ touched)
}.

(** The parent directory of [p] is there after the events [pre]: created by
    one of them, or present before the run. *)
Definition parentReady (w : World) (pre : list Event) (p : path) : Prop :=
  exists d, dirname p = Some d /\ (In (MkdirSync d) pre \/ existsBefore w d = true).

(** Every file written and every directory created below [root] finds its
    parent directory in place. *)
Definition eventReady (w : World) (root : path) (pre : list Event) (e : Event) : Prop :=
  match e with
  | WriteFileSync p _ => parentReady w pre p
  | MkdirSync p => p = root \/ parentReady w pre p
  | Exec _ => True
  end.

Fixpoint parentsFirst (w : World) (root : path) (pre t : list Event) : Prop :=
  match t with
  | [] => True
  | e :: rest => eventReady w root pre e /\ parentsFirst w root (pre ++ [e]) rest
  end.

(** Two answer sets that differ at most in [basicErrorHandler]. *)
Definition sameButBasicErrorHandler (a1 a2 : AnswerSet) : Prop :=
  projectName a1 = projectName a2 /\ language a1 = language a2 /\
  enableCORS a1 = enableCORS a2 /\ envFile a1 = envFile a2 /\
  morganLogging a1 = morganLogging a2 /\ docker a1 = docker a2.

(** The query [getLatestPackageVersion] sends for a package. *)
Definition npmShow (packageName : string) : string :=
  "npm show " +:+ packageName +:+ " version".

(** ** The single-language variant ([src/unnamed/part_000])

    The second script of the repository asks the same questions; it sets
    the scripts of the manifest without looking at the language. *)
Module TsOnly.

Definition withScripts (packageJson : Manifest) : Manifest :=
  {| scripts := Some (<["watch" := "tsc -w"]>
                      (<["dev" := "nodemon src/app.ts"]> (spread (scripts packageJson))));
     otherFields := otherFields packageJson |}.

(** The manifest it writes for the answers [answers]. *)
Definition manifest (answers : AnswerSet) (packageJson : Manifest) : Manifest :=
  withScripts packageJson.

End TsOnly.

(** ** The rest of the second script ([src/unnamed/part_000])

    Apart from the scripts of the manifest, the second script differs from
    [src/index.js] in the entry file, which it always writes as
    TypeScript to [app.ts], in the error middleware, always [error.ts],
    and in having no Dockerfile step.  The error handler, [.env],
    [tsconfig.json] and the error middleware have the same texts, and the
    two dependency lists are computed by the same statements. *)
Module Variant.

(** The first value of [imports]. *)
Definition imports0 : string :=
  lines
    [ "";
      "import express from 'express';";
      "" ].

(** The first value of [appSetup]. *)
Definition appSetup0 : string :=
  lines
    [ "";
      "const app = express();";
      "app.use(express.json());";
      "" ].

Definition remainingSetup : string :=
  lines
    [ "";
      "export const envMode = process.env.NODE_ENV || 'development';  // Default to 'development'";
      "";
      "// Define the port from the environment variable or default to 3000";
      "const port = process.env.PORT || 3000;";
      "";
      "// Start the server on the specified port";
      "app.listen(port, () => {";
      "  console.log(`Server running in ${envMode} mode on port ${port}`);";
      "});";
      "";
      "app.get('/', (req, res) => {";
      "  res.send('Hello World');";
      "});";
      "";
      "export default app;";
      "" ].

Definition appFileContent (enableCORS morganLogging envFile : bool) : string :=
  let imports := imports0 in
  let imports :=
    if envFile then imports +:+ "import dotenv from 'dotenv';" +:+ nl else imports in
  let imports :=
    if enableCORS then imports +:+ "import cors from 'cors';" +:+ nl else imports in
  let imports :=
    if morganLogging then imports +:+ "import morgan from 'morgan';" +:+ nl else imports in
  let appSetup := appSetup0 in
  let appSetup :=
    if envFile then
      "dotenv.config(); // Load environment variables from .env file" +:+ nl +:+ appSetup
    else appSetup in
  let appSetup :=
    if enableCORS then appSetup +:+ "app.use(cors()); // Enable CORS" +:+ nl else appSetup in
  let appSetup :=
    if morganLogging then
      appSetup +:+ "app.use(morgan('dev')); // Use Morgan for logging" +:+ nl
    else appSetup in
  imports +:+ appSetup +:+ remainingSetup.

(** The callback of [exec("npm init -y")] once the manifest is there. *)
Definition generate (w : World) (answers : AnswerSet) (projectDir : path)
    (packageJson : Manifest) : Cmd :=
  let packageJsonPath := projectDir </> "package.json" in
  let packageJson := TsOnly.withScripts packageJson in
  writeFileSync packageJsonPath (Json packageJson) ;;
  start w (dependencies answers) projectDir false ;;
  start w (devDependencies answers) projectDir true ;;
  let srcDir := projectDir </> "src" in
  let utilsDir := srcDir </> "utils" in
  unlessExists srcDir (mkdirSync srcDir) ;;
  forEach folders (fun folder =>
    let folderPath := srcDir </> folder in
    unlessExists folderPath (mkdirSync folderPath)) ;;
  unlessExists utilsDir (mkdirSync utilsDir) ;;
  writeFileSync (utilsDir </> "errorHandler.ts") (Text errorHandlerContent) ;;
  let appFilePath := srcDir </> "app.ts" in
  writeFileSync appFilePath
    (Text (appFileContent (enableCORS answers) (morganLogging answers) (envFile answers))) ;;
  when (envFile answers)
    (let envFilePath := projectDir </> ".env" in
     writeFileSync envFilePath (Text envContent)) ;;
  when (isTypeScript (language answers))
    (let tsconfigFilePath := projectDir </> "tsconfig.json" in
     writeFileSync tsconfigFilePath (Text tsconfigContent)) ;;
  let errorMiddlewarePath := srcDir </> "middlewares" </> "error.ts" in
  writeFileSync errorMiddlewarePath (Text errorMiddlewareContent).

(** The body of [inquirer.prompt(questions).then(...)]. *)
Definition script (w : World) (answers : AnswerSet) : Cmd :=
  let projectDir := Base (cwd w) </> projectName answers in
  unlessExists projectDir (mkdirSync projectDir) ;;
  exec "npm init -y" projectDir ;;
  match npmInit w with
  | None => skip
  | Some packageJson => generate w answers projectDir packageJson
  end.

Definition main (w : World) (answers : AnswerSet) : Sys :=
  script w answers (initial w).

(** The events of [generate], spelled out. *)
Definition generated (w : World) (answers : AnswerSet) (projectDir : path)
    (packageJson : Manifest) : list Event :=
  let srcDir := projectDir </> "src" in
  [WriteFileSync (projectDir </> "package.json") (Json (TsOnly.withScripts packageJson))] ++
  ensure w srcDir ++
  ensure w (srcDir </> "controllers") ++
  ensure w (srcDir </> "middlewares") ++
  ensure w (srcDir </> "models") ++
  ensure w (srcDir </> "routes") ++
  ensure w (srcDir </> "tests") ++
  ensure w (srcDir </> "lib") ++
  ensure w (srcDir </> "utils") ++
  [WriteFileSync (srcDir </> "utils" </> "errorHandler.ts") (Text errorHandlerContent);
   WriteFileSync (srcDir </> "app.ts")
     (Text (appFileContent (enableCORS answers) (morganLogging answers)
              (envFile answers)))] ++
  (if envFile answers
   then [WriteFileSync (projectDir </> ".env") (Text envContent)] else []) ++
  (if isTypeScript (language answers)
   then [WriteFileSync (projectDir </> "tsconfig.json") (Text tsconfigContent)] else []) ++
  [WriteFileSync (srcDir </> "middlewares" </> "error.ts") (Text errorMiddlewareContent)].

End Variant.

(** ** More ways to read a run *)

(** [s.endsWith(suffix)]. *)
Fixpoint endsWith (suffix s : string) : bool :=
  if decide (s = suffix) then true
  else match s with
       | EmptyString => false
       | String _ rest => endsWith suffix rest
       end.

Definition firstChar (s : string) : option ascii :=
  match s with
  | EmptyString => None
  | String c _ => Some c
  end.

Fixpoint lastChar (s : string) : option ascii :=
  match s with
  | EmptyString => None
  | String c EmptyString => Some c
  | String _ rest => lastChar rest
  end.

(** [p] lies strictly below [root]. *)
Fixpoint below (root p : path) : bool :=
  match p with
  | Base _ => false
  | Join d _ => bool_decide (d = root) || below root d
  end.

(** The child processes started with [exec], in order. *)
Fixpoint execs (t : list Event) : list ExecCall :=
  match t with
  | [] => []
  | Exec c :: rest => c :: execs rest
  | _ :: rest => execs rest
  end.

(** The directories of a generated project, in the order of the script. *)
Definition layout (projectDir : path) : list path :=
  let srcDir := projectDir </> "src" in
  projectDir :: srcDir :: map (Join srcDir) folders ++ [srcDir </> "utils"].

(** The members of [ds] that were not there when the run started. *)
Definition missing (w : World) (ds : list path) : list path :=
  List.filter (fun d => negb (existsBefore w d)) ds.

(** The world a second run on the same machine finds: the disk as the
    first run left it, and [npm init] answering [packageJson2]. *)
Definition afterRun (w : World) (answers : AnswerSet) (packageJson2 : Manifest) : World :=
  {| cwd := cwd w;
     existsBefore := fs (main w answers);
     npmInit := Some packageJson2;
     shell := shell w |}.

(** The answers with another project name. *)
Definition renamed (answers : AnswerSet) (name : string) : AnswerSet :=
  {| projectName := name; language := language answers;
     enableCORS := enableCORS answers; basicErrorHandler := basicErrorHandler answers;
     envFile := envFile answers; morganLogging := morganLogging answers;
     docker := docker answers |}.

(** The entry an install command holds for [dep]. *)
Definition pinned (w : World) (dep : string) : string :=
  dep +:+ "@" +:+ showVersion match shell w (npmShow dep) with
                              | Fulfilled stdout => Some (trim stdout)
                              | Rejected _ => None
                              end.

(** ** Sample inputs *)

Definition demoAnswers : AnswerSet :=
  {| projectName := "demo"; language := JavaScript; enableCORS := true;
     basicErrorHandler := true; envFile := true; morganLogging := false;
     docker := false |}.

Definition demoManifest : Manifest :=
  {| scripts := Some {[ "test" := "echo no test" ]}; otherFields := "" |}.

(** An empty directory, and a registry that does not know [cors]. *)
Definition demoWorld : World :=
  {| cwd := "/home/user";
     existsBefore := fun _ => false;
     npmInit := Some demoManifest;
     shell := fun cmd =>
       if decide (cmd = "npm show cors version") then Rejected "E404"
       else Fulfilled ("1.2.3" +:+ nl) |}.

(** Another machine, where [demo] is there already, the manifest has no
    scripts and the registry knows every package. *)
Definition secondRun : World :=
  {| cwd := "/srv/www";
     existsBefore := fun p => bool_decide (p = Base "/srv/www" </> "demo");
     npmInit := Some {| scripts := None; otherFields := "private" |};
     shell := fun _ => Fulfilled "4.18.2" |}.

(** The demo answers with the error-handler toggle off. *)
Definition demoAnswersNoHandler : AnswerSet :=
  {| projectName := "demo"; language := JavaScript; enableCORS := true;
     basicErrorHandler := false; envFile := true; morganLogging := false;
     docker := false |}.

(** The demo answers for TypeScript and Docker. *)
Definition demoAnswersTsDocker : AnswerSet :=
  {| projectName := "demo"; language := TypeScript; enableCORS := true;
     basicErrorHandler := true; envFile := true; morganLogging := false;
     docker := true |}.

(** * Properties *)

(** ** Sample runs *)

Example trim_version : trim ("  4.18.2" +:+ nl) = "4.18.2".
Proof. reflexivity. Qed.

Example installCommand_runtime :
  installCommand false "express@4.18.2" = "npm install  express@4.18.2".
Proof. reflexivity. Qed.

Example installCommand_dev :
  installCommand true "nodemon@3.0.0" = "npm install -D nodemon@3.0.0".
Proof. reflexivity. Qed.

(** The demo run in an empty directory: the directories in the order of
    their creation, the files in the order of their writing, and the two
    install commands. *)
Example demo_mkdirs :
  let demo := Base "/home/user" </> "demo" in
  mkdirs (trace (main demoWorld demoAnswers)) =
    [demo; demo </> "src"; demo </> "src" </> "controllers";
     demo </> "src" </> "middlewares"; demo </> "src" </> "models";
     demo </> "src" </> "routes"; demo </> "src" </> "tests";
     demo </> "src" </> "lib"; demo </> "src" </> "utils"].
Proof. by vm_compute. Qed.

Example demo_written :
  let demo := Base "/home/user" </> "demo" in
  map fst (writes (trace (main demoWorld demoAnswers))) =
    [demo </> "package.json"; demo </> "src" </> "utils" </> "errorHandler.ts";
     demo </> "src" </> "app.js"; demo </> ".env";
     demo </> "src" </> "middlewares" </> "error.js"].
Proof. by vm_compute. Qed.

Example demo_installs :
  let demo := Base "/home/user" </> "demo" in
  map outcome (jobs (main demoWorld demoAnswers)) =
    [Fulfilled {| cmdline := "npm install  express@1.2.3 cors@null dotenv@1.2.3";
                  workdir := demo |};
     Fulfilled {| cmdline := "npm install -D nodemon@1.2.3"; workdir := demo |}].
Proof. by vm_compute. Qed.

(** The same answers where [demo] exists: its creation is skipped. *)
Example secondRun_mkdirs :
  let demo := Base "/srv/www" </> "demo" in
  mkdirs (trace (main secondRun demoAnswers)) =
    [demo </> "src"; demo </> "src" </> "controllers";
     demo </> "src" </> "middlewares"; demo </> "src" </> "models";
     demo </> "src" </> "routes"; demo </> "src" </> "tests";
     demo </> "src" </> "lib"; demo </> "src" </> "utils"].
Proof. by vm_compute. Qed.

(** A run whose [npm init] fails stops after it. *)
Example failed_init_run :
  trace (main {| cwd := "/tmp"; existsBefore := fun _ => false; npmInit := None;
                 shell := fun _ => Rejected "offline" |} demoAnswers) =
    [MkdirSync (Base "/tmp" </> "demo");
     Exec {| cmdline := "npm init -y"; workdir := Base "/tmp" </> "demo" |}].
Proof. reflexivity. Qed.

(** ** Strings *)

Lemma append_cons a s t : String a s +:+ t = String a (s +:+ t).
Proof. reflexivity. Qed.

Lemma append_assoc s t u : (s +:+ t) +:+ u = s +:+ t +:+ u.
Proof. induction s as [|a s IH]; [done|]. by rewrite !append_cons, IH. Qed.

Lemma append_empty_r s : s +:+ "" = s.
Proof. induction s as [|a s IH]; [done|]. by rewrite append_cons, IH. Qed.

Lemma startsWith_spec p s : startsWith p s = true <-> exists rest, s = p +:+ rest.
Proof.
  revert s. induction p as [|a p IH]; intros s; simpl.
  - split; [intros _; by exists s | done].
  - destruct s as [|b s].
    + split; [done | intros [rest Hrest]; discriminate Hrest].
    + case_decide as Hab.
      * subst b. rewrite IH. split.
        -- intros [rest ->]. by exists rest.
        -- intros [rest Hrest]. rewrite append_cons in Hrest.
           injection Hrest as ->. by exists rest.
      * split; [done|]. intros [rest Hrest]. rewrite append_cons in Hrest. congruence.
Qed.

(** [includes] finds exactly the substrings. *)
Lemma includes_spec needle hay :
  includes needle hay = true <-> exists pre post, hay = pre +:+ needle +:+ post.
Proof.
  induction hay as [|b hay IH]; simpl.
  - rewrite orb_false_r, startsWith_spec. split.
    + intros [rest ->]. by exists "", rest.
    + intros (pre & post & H). destruct pre; [by exists post|discriminate H].
  - rewrite orb_true_iff, startsWith_spec, IH. split.
    + intros [[rest ->] | (pre & post & ->)].
      * by exists "", rest.
      * by exists (String b pre), post.
    + intros (pre & post & H). destruct pre as [|c pre].
      * left. by exists post.
      * right. rewrite append_cons in H. injection H as -> ->. by exists pre, post.
Qed.

Lemma includes_append_r needle s t : includes needle t = true -> includes needle (s +:+ t) = true.
Proof.
  rewrite !includes_spec. intros (pre & post & ->).
  exists (s +:+ pre), post. by rewrite append_assoc.
Qed.

Lemma includes_append_l needle s t : includes needle s = true -> includes needle (s +:+ t) = true.
Proof.
  rewrite !includes_spec. intros (pre & post & ->).
  exists pre, (post +:+ t). by rewrite !append_assoc.
Qed.

Lemma includes_self s : includes s s = true.
Proof. apply includes_spec. exists "", "". by rewrite append_empty_r. Qed.

(** An element of a joined list is a substring of the result. *)
Lemma includes_join sep x xs : In x xs -> includes x (join sep xs) = true.
Proof.
  induction xs as [|y ys IH]; [done|]. intros [-> | Hin].
  - destruct ys; simpl; [apply includes_self|].
    apply includes_append_l, includes_self.
  - destruct ys as [|z ys]; [done|].
    change (join sep (y :: z :: ys)) with (y +:+ sep +:+ join sep (z :: ys)).
    by apply includes_append_r, includes_append_r, IH.
Qed.

(** ** Version resolver and installer *)

(** The resolver settles every query: on the trimmed output, or on null. *)
Lemma getLatestPackageVersion_settles w packageName :
  getLatestPackageVersion w packageName =
  Fulfilled match shell w (npmShow packageName) with
            | Fulfilled stdout => Some (trim stdout)
            | Rejected _ => None
            end.
Proof.
  unfold getLatestPackageVersion, execPromise, npmShow.
  by destruct (shell w _).
Qed.

Lemma depVersion_settles w dep :
  exists v, depVersion w dep = Fulfilled v /\
    v = dep +:+ "@" +:+ showVersion match shell w (npmShow dep) with
                                    | Fulfilled stdout => Some (trim stdout)
                                    | Rejected _ => None
                                    end.
Proof.
  unfold depVersion. rewrite getLatestPackageVersion_settles. simpl. eauto.
Qed.

Lemma Promise_all_fulfilled {A} (ps : list (Promise A)) (vs : list A) :
  ps = map Fulfilled vs -> Promise_all ps = Fulfilled vs.
Proof.
  intros ->. induction vs as [|v vs IH]; [done|]. simpl. by rewrite IH.
Qed.

Lemma installDependencies_settles w deps dir isDev :
  installDependencies w deps dir isDev =
  Fulfilled {| cmdline :=
                 installCommand isDev
                   (join " " (map (fun dep =>
                      dep +:+ "@" +:+ showVersion match shell w (npmShow dep) with
                                                  | Fulfilled stdout => Some (trim stdout)
                                                  | Rejected _ => None
                                                  end) deps));
               workdir := dir |}.
Proof.
  unfold installDependencies.
  erewrite Promise_all_fulfilled; [done|].
  rewrite map_map. apply map_ext. intros dep.
  by destruct (depVersion_settles w dep) as (v & -> & ->).
Qed.

(** The command an installation runs: [npm install], the flag, and the
    entries of the batch in order, each of them a part of the text. *)
Lemma installDependencies_command w deps dir isDev :
  exists call,
    installDependencies w deps dir isDev = Fulfilled call
    /\ workdir call = dir
    /\ cmdline call =
       "npm install " +:+ (if isDev then "-D" else "") +:+ " " +:+
       join " " (map (pinned w) deps)
    /\ Forall (fun dep => includes (pinned w dep) (cmdline call) = true) deps.
Proof.
  eexists. split; [apply installDependencies_settles|]. cbn [cmdline workdir].
  split; [done|]. split; [done|].
  apply Forall_forall. intros dep Hdep. unfold installCommand.
  do 3 apply includes_append_r. apply includes_join.
  apply (in_map (pinned w)). by apply list_elem_of_In.
Qed.

(** ** Stepping through the script *)

Section Stepping.

Context (w : World).

Lemma Reaches_initial : Reaches w (initial w) [] [] [].
Proof. split; [done..|]. intros p. simpl. by rewrite orb_false_r. Qed.

Lemma present_touched f touched p :
  (forall x, f x = existsBefore w x || bool_decide (x ∈ touched)) ->
  forall x, present p f x = existsBefore w x || bool_decide (x ∈ p :: touched).
Proof.
  intros Hf x. unfold present. case_decide as Hx.
  - subst x. rewrite (bool_decide_eq_true_2 (p ∈ p :: touched)) by left.
    by rewrite orb_true_r.
  - rewrite Hf. f_equal. apply bool_decide_ext. rewrite elem_of_cons. tauto.
Qed.

Lemma Reaches_write s t touched js p c :
  Reaches w s t touched js ->
  Reaches w (writeFileSync p c s) (t ++ [WriteFileSync p c]) (p :: touched) js.
Proof.
  intros [Ht Hj Hf]. split; simpl; [by rewrite Ht | done |].
  by apply present_touched.
Qed.

Lemma Reaches_ensure s t touched js p :
  Reaches w s t touched js -> p ∉ touched ->
  Reaches w (unlessExists p (mkdirSync p) s) (t ++ ensure w p) (p :: touched) js.
Proof.
  intros [Ht Hj Hf] Hp. unfold unlessExists, ensure.
  rewrite (Hf p), (bool_decide_eq_false_2 _ Hp), orb_false_r.
  destruct (existsBefore w p) eqn:Hw.
  - split; [by rewrite app_nil_r | done |]. intros x. rewrite Hf.
    destruct (decide (x = p)) as [-> | Hx].
    + rewrite Hw. done.
    + f_equal. apply bool_decide_ext. rewrite elem_of_cons. tauto.
  - split; simpl; [by rewrite Ht | done |]. by apply present_touched.
Qed.

Lemma Reaches_exec s t touched js cmd dir :
  Reaches w s t touched js ->
  Reaches w (exec cmd dir s) (t ++ [Exec {| cmdline := cmd; workdir := dir |}]) touched js.
Proof. intros [Ht Hj Hf]. split; simpl; [by rewrite Ht | done | done]. Qed.

Lemma Reaches_start s t touched js deps dir isDev :
  Reaches w s t touched js ->
  Reaches w (start w deps dir isDev s) t touched
    (js ++ [ {| packages := deps; dev := isDev;
                outcome := installDependencies w deps dir isDev |} ]).
Proof. intros [Ht Hj Hf]. split; simpl; [done | by rewrite Hj | done]. Qed.

Ltac fresh_path :=
  repeat (apply not_elem_of_cons; split; [congruence|]); apply not_elem_of_nil.

Ltac reach :=
  lazymatch goal with
  | |- Reaches _ (writeFileSync _ _ _) _ _ _ => eapply Reaches_write; reach
  | |- Reaches _ (unlessExists _ (mkdirSync _) _) _ _ _ =>
      eapply Reaches_ensure; [reach | fresh_path]
  | |- Reaches _ (exec _ _ _) _ _ _ => eapply Reaches_exec; reach
  | |- Reaches _ (start _ _ _ _ _) _ _ _ => eapply Reaches_start; reach
  | |- Reaches _ (initial _) _ _ _ => apply Reaches_initial
  end.

Lemma Reaches_as s t touched js t' js' :
  Reaches w s t touched js -> t = t' -> js = js' -> Reaches w s t' touched js'.
Proof. by intros H <- <-. Qed.

(** The run, event by event: the guarded creation of the project
    directory, [npm init], and, when that succeeded, the events of
    [generate] and the two installations it starts. *)
Lemma main_reaches answers :
  exists touched,
    Reaches w (main w answers)
      (ensure w (projectDirOf w answers) ++
       Exec {| cmdline := "npm init -y"; workdir := projectDirOf w answers |} ::
       match npmInit w with
       | None => []
       | Some packageJson => generated w answers (projectDirOf w answers) packageJson
       end)
      touched
      match npmInit w with
      | None => []
      | Some _ => started w answers (projectDirOf w answers)
      end.
Proof.
  unfold main, script, projectDirOf, generated, started.
  destruct answers as [name lang cors beh env morgan dock].
  destruct (npmInit w) as [packageJson|].
  - destruct lang, env, dock;
      cbv beta iota zeta delta
        [generate seq forEach folders when skip isTypeScript
         projectName language envFile docker enableCORS morganLogging];
      eexists; (eapply Reaches_as; [reach | |]);
      simpl; rewrite <- ?app_assoc; reflexivity.
  - cbv beta iota zeta delta [seq skip projectName].
    eexists. eapply Reaches_as; [reach | |]; reflexivity.
Qed.

Lemma main_trace answers :
  trace (main w answers) =
    ensure w (projectDirOf w answers) ++
    Exec {| cmdline := "npm init -y"; workdir := projectDirOf w answers |} ::
    match npmInit w with
    | None => []
    | Some packageJson => generated w answers (projectDirOf w answers) packageJson
    end.
Proof. destruct (main_reaches answers) as [touched [Ht _ _]]. exact Ht. Qed.

Lemma main_jobs answers :
  jobs (main w answers) =
    match npmInit w with
    | None => []
    | Some _ => started w answers (projectDirOf w answers)
    end.
Proof. destruct (main_reaches answers) as [touched [_ Hj _]]. exact Hj. Qed.

End Stepping.

(** ** Reading the trace *)

Lemma writes_app t1 t2 : writes (t1 ++ t2) = writes t1 ++ writes t2.
Proof.
  induction t1 as [|[p|p c|c] t1 IH]; simpl; [done | done | by rewrite IH | done].
Qed.

Lemma writes_ensure w p : writes (ensure w p) = [].
Proof. unfold ensure. by destruct (existsBefore w p). Qed.

(** The files a successful run writes: the manifest, the error handler,
    the entry file, then [.env], [tsconfig.json], the error middleware and
    the [Dockerfile], the optional ones as the answers ask. *)
Lemma main_writes w answers packageJson :
  npmInit w = Some packageJson ->
  writes (trace (main w answers)) =
    let projectDir := projectDirOf w answers in
    let ts := isTypeScript (language answers) in
    [(projectDir </> "package.json", Json (withScripts (language answers) packageJson));
     (projectDir </> "src" </> "utils" </> "errorHandler.ts", Text errorHandlerContent);
     (projectDir </> "src" </> (if ts then "app.ts" else "app.js"),
      Text (appFileContent (enableCORS answers) (morganLogging answers)
              (envFile answers) (language answers)))] ++
    (if envFile answers then [(projectDir </> ".env", Text envContent)] else []) ++
    (if ts then [(projectDir </> "tsconfig.json", Text tsconfigContent)] else []) ++
    [(projectDir </> "src" </> "middlewares" </> (if ts then "error.ts" else "error.js"),
      Text errorMiddlewareContent)] ++
    (if docker answers
     then [(projectDir </> "Dockerfile", Text (dockerfileContent (envFile answers)))]
     else []).
Proof.
  intros Hinit. rewrite main_trace, Hinit. unfold generated.
  rewrite !writes_app, !writes_ensure. simpl.
  rewrite !writes_app, !writes_ensure. simpl.
  by destruct (language answers), (envFile answers), (docker answers).
Qed.

(** A run whose [npm init] fails writes nothing. *)
Lemma main_writes_none w answers :
  npmInit w = None -> writes (trace (main w answers)) = [].
Proof.
  intros Hinit. rewrite main_trace, Hinit, writes_app, writes_ensure. done.
Qed.

(** ** Parents before children *)

Lemma parentsFirst_split w root pre0 t :
  parentsFirst w root pre0 t ->
  forall pre e post, t = pre ++ e :: post -> eventReady w root (pre0 ++ pre) e.
Proof.
  revert pre0. induction t as [|e0 t IH]; intros pre0 Ht pre e post Heq.
  - by destruct pre.
  - destruct Ht as [He0 Ht]. destruct pre as [|e1 pre]; simpl in Heq.
    + injection Heq as <- _. by rewrite app_nil_r.
    + injection Heq as <- Heq.
      specialize (IH _ Ht pre e post Heq). by rewrite <- app_assoc in IH.
Qed.

Lemma parentsFirst_ensure w root pre p rest :
  p = root \/ parentReady w pre p ->
  parentsFirst w root (pre ++ ensure w p) rest ->
  parentsFirst w root pre (ensure w p ++ rest).
Proof.
  unfold ensure. destruct (existsBefore w p); simpl; [|done].
  by rewrite app_nil_r.
Qed.

Ltac created_or_present :=
  lazymatch goal with
  | |- parentReady ?w _ (?d </> _) =>
      exists d; split; [reflexivity|];
      destruct (existsBefore w d) eqn:Hpresent; [by right|left];
      unfold ensure; rewrite Hpresent, ?in_app_iff; simpl; intuition auto
  end.

Ltac parents_first :=
  lazymatch goal with
  | |- parentsFirst _ _ _ (ensure _ _ ++ _) =>
      apply parentsFirst_ensure; [first [by left | right; created_or_present] | parents_first]
  | |- parentsFirst _ _ _ (WriteFileSync _ _ :: _) =>
      split; [cbn [eventReady]; created_or_present | parents_first]
  | |- parentsFirst _ _ _ (Exec _ :: _) => split; [exact I | parents_first]
  | |- parentsFirst _ _ _ [] => exact I
  end.

(** In every run each written file, and each created directory below the
    project directory, finds its parent directory created earlier or
    present from the start. *)
Lemma main_parentsFirst w answers :
  parentsFirst w (projectDirOf w answers) [] (trace (main w answers)).
Proof.
  rewrite main_trace. destruct (npmInit w) as [packageJson|].
  - unfold generated, projectDirOf.
    destruct (language answers), (envFile answers), (docker answers); simpl;
      parents_first.
  - unfold projectDirOf. parents_first.
Qed.

(** ** The generated files and dependency lists *)

(** The generated texts are a function of the answers alone. *)
Lemma main_texts w answers packageJson :
  npmInit w = Some packageJson ->
  texts (writes (trace (main w answers))) =
    let ts := isTypeScript (language answers) in
    [("errorHandler.ts", errorHandlerContent);
     (if ts then "app.ts" else "app.js",
      appFileContent (enableCORS answers) (morganLogging answers)
        (envFile answers) (language answers))] ++
    (if envFile answers then [(".env", envContent)] else []) ++
    (if ts then [("tsconfig.json", tsconfigContent)] else []) ++
    [(if ts then "error.ts" else "error.js", errorMiddlewareContent)] ++
    (if docker answers then [("Dockerfile", dockerfileContent (envFile answers))] else []).
Proof.
  intros Hinit. rewrite (main_writes _ _ _ Hinit).
  by destruct (language answers), (envFile answers), (docker answers).
Qed.

(** C1: two runs on the same answers, whatever the directory they start in,
    what is on disk, the manifest [npm init] produced and the versions the
    registry reports, write the same texts to files of the same names
    (error handler, entry file, [.env], [tsconfig.json], error middleware,
    [Dockerfile]) and ask for the same runtime and development packages,
    provided [npm init] fails in both or in neither. *)
Theorem generation_deterministic (w1 w2 : World) (answers : AnswerSet) :
  (npmInit w1 = None <-> npmInit w2 = None) ->
  texts (writes (trace (main w1 answers))) = texts (writes (trace (main w2 answers)))
  /\ map packages (jobs (main w1 answers)) = map packages (jobs (main w2 answers))
  /\ map dev (jobs (main w1 answers)) = map dev (jobs (main w2 answers)).
Proof.
  intros Hinit. rewrite !main_jobs.
  destruct (npmInit w1) as [m1|] eqn:H1, (npmInit w2) as [m2|] eqn:H2.
  - by rewrite (main_texts _ _ _ H1), (main_texts _ _ _ H2).
  - by destruct Hinit as [_ Hinit]; discriminate Hinit.
  - by destruct Hinit as [Hinit _]; discriminate Hinit.
  - by rewrite !main_writes_none.
Qed.

Lemma generation_deterministic_witness :
  texts (writes (trace (main demoWorld demoAnswers))) =
    texts (writes (trace (main secondRun demoAnswers)))
  /\ map packages (jobs (main demoWorld demoAnswers)) =
     map packages (jobs (main secondRun demoAnswers))
  /\ map dev (jobs (main demoWorld demoAnswers)) =
     map dev (jobs (main secondRun demoAnswers)).
Proof.
  apply (generation_deterministic demoWorld secondRun demoAnswers).
  simpl. split; intros H; discriminate H.
Defined.

(** C2: two answer sets that differ only in [basicErrorHandler] give the
    same run: the same events, files, contents and installations; and the
    error handler and the error middleware are written in both whenever
    anything is generated. *)
Theorem basicErrorHandler_is_ignored (w : World) (a1 a2 : AnswerSet) :
  sameButBasicErrorHandler a1 a2 ->
  main w a1 = main w a2
  /\ (is_Some (npmInit w) ->
      let ts := isTypeScript (language a1) in
      let srcDir := projectDirOf w a1 </> "src" in
      In (srcDir </> "utils" </> "errorHandler.ts", Text errorHandlerContent)
         (writes (trace (main w a1)))
      /\ In (srcDir </> "middlewares" </> (if ts then "error.ts" else "error.js"),
             Text errorMiddlewareContent)
            (writes (trace (main w a1)))).
Proof.
  destruct a1 as [n1 l1 c1 b1 e1 m1 d1], a2 as [n2 l2 c2 b2 e2 m2 d2].
  unfold sameButBasicErrorHandler. simpl. intros (-> & -> & -> & -> & -> & ->).
  split; [reflexivity|].
  intros [packageJson Hinit]. rewrite (main_writes _ _ _ Hinit). simpl.
  rewrite !in_app_iff. simpl. destruct l2, e2, d2; simpl; auto 10.
Qed.

Lemma basicErrorHandler_is_ignored_witness :
  main demoWorld demoAnswers = main demoWorld demoAnswersNoHandler
  /\ (is_Some (npmInit demoWorld) ->
      let ts := isTypeScript (language demoAnswers) in
      let srcDir := projectDirOf demoWorld demoAnswers </> "src" in
      In (srcDir </> "utils" </> "errorHandler.ts", Text errorHandlerContent)
         (writes (trace (main demoWorld demoAnswers)))
      /\ In (srcDir </> "middlewares" </> (if ts then "error.ts" else "error.js"),
             Text errorMiddlewareContent)
            (writes (trace (main demoWorld demoAnswers)))).
Proof.
  apply (basicErrorHandler_is_ignored demoWorld demoAnswers demoAnswersNoHandler).
  unfold sameButBasicErrorHandler. simpl. repeat split; reflexivity.
Defined.

(** C3: in a run that gets past [npm init], no file called [Dockerfile]
    is written when [docker] is false, and exactly one is written when it
    is true, directly under the project directory. *)
Theorem dockerfile_iff_docker (w : World) (answers : AnswerSet) (packageJson : Manifest) :
  npmInit w = Some packageJson ->
  writesNamed "Dockerfile" (trace (main w answers)) =
    if docker answers
    then [(projectDirOf w answers </> "Dockerfile",
           Text (dockerfileContent (envFile answers)))]
    else [].
Proof.
  intros Hinit. unfold writesNamed. rewrite (main_writes _ _ _ Hinit).
  by destruct (language answers), (envFile answers), (docker answers).
Qed.

Lemma dockerfile_iff_docker_witness :
  writesNamed "Dockerfile" (trace (main demoWorld demoAnswersTsDocker)) =
    [(Base "/home/user" </> "demo" </> "Dockerfile", Text (dockerfileContent true))].
Proof.
  apply (dockerfile_iff_docker demoWorld demoAnswersTsDocker demoManifest).
  reflexivity.
Defined.

(** C4: in a run that gets past [npm init], no [tsconfig.json] is written
    for JavaScript, and exactly one is written for TypeScript, whose text
    contains the line fragment that switches strict mode on. *)
Theorem tsconfig_iff_typescript (w : World) (answers : AnswerSet) (packageJson : Manifest) :
  npmInit w = Some packageJson ->
  writesNamed "tsconfig.json" (trace (main w answers)) =
    match language answers with
    | JavaScript => []
    | TypeScript => [(projectDirOf w answers </> "tsconfig.json", Text tsconfigContent)]
    end
  /\ includes (q "strict" +:+ ": true") tsconfigContent = true.
Proof.
  intros Hinit. split; [|by vm_compute].
  unfold writesNamed. rewrite (main_writes _ _ _ Hinit).
  by destruct (language answers), (envFile answers), (docker answers).
Qed.

Lemma tsconfig_iff_typescript_witness :
  writesNamed "tsconfig.json" (trace (main demoWorld demoAnswersTsDocker)) =
    [(Base "/home/user" </> "demo" </> "tsconfig.json", Text tsconfigContent)]
  /\ includes (q "strict" +:+ ": true") tsconfigContent = true.
Proof.
  apply (tsconfig_iff_typescript demoWorld demoAnswersTsDocker demoManifest).
  reflexivity.
Defined.

(** C5: for the demo answers (JavaScript, CORS and [.env] on, Morgan and
    Docker off) a run that gets past [npm init] asks for the runtime
    packages express, cors and dotenv and the development package nodemon,
    writes an entry file [app.js] that holds the line requiring cors and
    no occurrence of morgan, writes [.env], and writes neither a
    [Dockerfile] nor a [tsconfig.json]. *)
Theorem demo_scenario (w : World) (packageJson : Manifest) :
  npmInit w = Some packageJson ->
  let run := main w demoAnswers in
  let projectDir := projectDirOf w demoAnswers in
  let entry := appFileContent true false true JavaScript in
  map (fun j => (packages j, dev j)) (jobs run) =
    [(["express"; "cors"; "dotenv"], false); (["nodemon"], true)]
  /\ writesNamed "app.js" (trace run) = [(projectDir </> "src" </> "app.js", Text entry)]
  /\ includes ("const cors = require('cors');" +:+ nl) entry = true
  /\ includes "morgan" entry = false
  /\ writesNamed ".env" (trace run) = [(projectDir </> ".env", Text envContent)]
  /\ writesNamed "Dockerfile" (trace run) = []
  /\ writesNamed "tsconfig.json" (trace run) = [].
Proof.
  intros Hinit. cbv zeta. unfold writesNamed.
  rewrite main_jobs, (main_writes _ _ _ Hinit), Hinit.
  repeat split; by vm_compute.
Qed.

Lemma demo_scenario_witness :
  let run := main demoWorld demoAnswers in
  let projectDir := projectDirOf demoWorld demoAnswers in
  let entry := appFileContent true false true JavaScript in
  map (fun j => (packages j, dev j)) (jobs run) =
    [(["express"; "cors"; "dotenv"], false); (["nodemon"], true)]
  /\ writesNamed "app.js" (trace run) = [(projectDir </> "src" </> "app.js", Text entry)]
  /\ includes ("const cors = require('cors');" +:+ nl) entry = true
  /\ includes "morgan" entry = false
  /\ writesNamed ".env" (trace run) = [(projectDir </> ".env", Text envContent)]
  /\ writesNamed "Dockerfile" (trace run) = []
  /\ writesNamed "tsconfig.json" (trace run) = [].
Proof.
  apply (demo_scenario demoWorld demoManifest). reflexivity.
Defined.

(** The error handler is the same TypeScript file for both languages. *)
Lemma errorHandler_written_as_ts w answers packageJson :
  npmInit w = Some packageJson ->
  writesNamed "errorHandler.ts" (trace (main w answers)) =
    [(projectDirOf w answers </> "src" </> "utils" </> "errorHandler.ts",
      Text errorHandlerContent)]
  /\ writesNamed "errorHandler.js" (trace (main w answers)) = [].
Proof.
  intros Hinit. unfold writesNamed. rewrite (main_writes _ _ _ Hinit).
  by destruct (language answers), (envFile answers), (docker answers).
Qed.

(** C6: for the JavaScript demo answers the error handler is written to
    [errorHandler.ts], no [errorHandler.js] is written, and its text
    declares a typed public field and typed constructor parameters, which
    only TypeScript accepts. *)
Theorem errorHandler_for_javascript_is_typescript :
  language demoAnswers = JavaScript
  /\ writesNamed "errorHandler.ts" (trace (main demoWorld demoAnswers)) =
     [(Base "/home/user" </> "demo" </> "src" </> "utils" </> "errorHandler.ts",
       Text errorHandlerContent)]
  /\ writesNamed "errorHandler.js" (trace (main demoWorld demoAnswers)) = []
  /\ includes "public statusCode: number;" errorHandlerContent = true
  /\ includes "constructor(message: string, statusCode: number = 500)"
       errorHandlerContent = true.
Proof. repeat split; by vm_compute. Qed.

(** ** Version resolution and the install command *)

(** C7: the resolver settles every query, on the trimmed version text or,
    when the query fails, on null, and it never rejects; so a batch is
    never aborted: whatever queries fail, [installDependencies] reaches
    its [exec] call in the directory it was given, and the command is
    [npm install], the flag and one entry per package of the batch, in
    order, each with the version resolved for that package and each a
    part of the command text. *)
Theorem resolver_never_rejects (w : World) (deps : list string) (dir : path)
    (isDev : bool) :
  let resolved name :=
    match shell w (npmShow name) with
    | Fulfilled stdout => Some (trim stdout)
    | Rejected _ => None
    end in
  (forall name, getLatestPackageVersion w name = Fulfilled (resolved name))
  /\ exists call,
       installDependencies w deps dir isDev = Fulfilled call
       /\ workdir call = dir
       /\ cmdline call =
          "npm install " +:+ (if isDev then "-D" else "") +:+ " " +:+
          join " " (map (fun dep => dep +:+ "@" +:+ showVersion (resolved dep)) deps)
       /\ startsWith "npm install " (cmdline call) = true
       /\ Forall (fun dep =>
                    includes (dep +:+ "@" +:+ showVersion (resolved dep)) (cmdline call)
                    = true) deps.
Proof.
  cbv zeta. split.
  - intros name. apply getLatestPackageVersion_settles.
  - destruct (installDependencies_command w deps dir isDev)
      as (call & Hcall & Hdir & Hcmd & Hentries).
    exists call. split_and!; [done | done | exact Hcmd | | exact Hentries].
    rewrite Hcmd. apply startsWith_spec. by eexists.
Qed.

(** C10: a package of the batch whose query fails is still in the install
    command, as its name followed by [@null]. *)
Theorem failed_resolution_is_pinned_to_null (w : World) (deps : list string)
    (dir : path) (isDev : bool) (name reason : string) :
  In name deps ->
  shell w (npmShow name) = Rejected reason ->
  exists depVersions,
    installDependencies w deps dir isDev =
      Fulfilled {| cmdline := installCommand isDev (join " " depVersions);
                   workdir := dir |}
    /\ length depVersions = length deps
    /\ In (name +:+ "@null") depVersions
    /\ includes (name +:+ "@null") (installCommand isDev (join " " depVersions)) = true.
Proof.
  intros Hin Hfail. eexists. split; [apply installDependencies_settles|].
  assert (In (name +:+ "@null")
            (map (fun dep => dep +:+ "@" +:+ showVersion
                    match shell w (npmShow dep) with
                    | Fulfilled stdout => Some (trim stdout)
                    | Rejected _ => None
                    end) deps)) as Hpinned.
  { apply in_map_iff. exists name. by rewrite Hfail. }
  split; [apply length_map|]. split; [exact Hpinned|].
  unfold installCommand. do 3 apply includes_append_r.
  by apply includes_join.
Qed.

Lemma failed_resolution_is_pinned_to_null_witness :
  exists depVersions,
    installDependencies demoWorld ["express"; "cors"; "dotenv"]
      (Base "/home/user" </> "demo") false =
      Fulfilled {| cmdline := installCommand false (join " " depVersions);
                   workdir := Base "/home/user" </> "demo" |}
    /\ length depVersions = 3
    /\ In ("cors" +:+ "@null") depVersions
    /\ includes ("cors" +:+ "@null") (installCommand false (join " " depVersions)) = true.
Proof.
  apply (failed_resolution_is_pinned_to_null demoWorld ["express"; "cors"; "dotenv"]
           (Base "/home/user" </> "demo") false "cors" "E404").
  - simpl. right. left. reflexivity.
  - reflexivity.
Defined.

(** ** The scripts of the manifest *)

(** X1: in [src/index.js] the manifest gains the entries [dev] and [watch]:
    [dev] runs the entry file under nodemon, [watch] recompiles for
    TypeScript and is empty for JavaScript; every other script and every
    other field stays as [npm init] wrote it. *)
Lemma withScripts_adds_dev_and_watch (l : Language) (packageJson : Manifest) :
  let old := spread (scripts packageJson) in
  let new := spread (scripts (withScripts l packageJson)) in
  new !! "dev" = Some (if isTypeScript l then "nodemon src/app.ts" else "nodemon src/app.js")
  /\ new !! "watch" = Some (if isTypeScript l then "tsc -w" else "")
  /\ (forall k, k <> "dev" -> k <> "watch" -> new !! k = old !! k)
  /\ dom new = {[ "watch" ]} ∪ ({[ "dev" ]} ∪ dom old)
  /\ otherFields (withScripts l packageJson) = otherFields packageJson.
Proof.
  destruct l; simpl; repeat split.
  all: try (intros k Hdev Hwatch).
  all: rewrite ?dom_insert_L; by simplify_map_eq.
Qed.

(** C8: the second script sets [dev] to the TypeScript entry file and
    [watch] to the TypeScript compiler for every answer set, the
    JavaScript demo answers included, where the claim wants [watch] empty
    or absent. *)
Theorem variant_watch_ignores_language (answers : AnswerSet) (packageJson : Manifest) :
  let new := spread (scripts (TsOnly.manifest answers packageJson)) in
  new !! "dev" = Some "nodemon src/app.ts"
  /\ new !! "watch" = Some "tsc -w"
  /\ language demoAnswers = JavaScript
  /\ spread (scripts (TsOnly.manifest demoAnswers demoManifest)) !! "watch" = Some "tsc -w".
Proof.
  unfold TsOnly.manifest, TsOnly.withScripts. simpl.
  repeat split; by simplify_map_eq.
Qed.

(** ** Directories before the files in them *)

(** C9, as stated, fails on a second run: the project directory is there,
    its creation is skipped, and the manifest is written into it with no
    creation of its parent anywhere before. *)
Lemma mkdir_is_skipped_for_a_present_directory :
  ~ (forall (w : World) (answers : AnswerSet) pre p c post,
       trace (main w answers) = pre ++ WriteFileSync p c :: post ->
       exists d, dirname p = Some d /\ In (MkdirSync d) pre).
Proof.
  intros Hclaim.
  destruct (Hclaim secondRun demoAnswers
              (firstn 1 (trace (main secondRun demoAnswers)))
              (Base "/srv/www" </> "demo" </> "package.json")
              (Json (withScripts JavaScript {| scripts := None; otherFields := "private" |}))
              (skipn 2 (trace (main secondRun demoAnswers))))
    as (d & Hd & Hin).
  - by vm_compute.
  - vm_compute in Hin. destruct Hin as [Hin | []]. discriminate Hin.
Qed.

Lemma In_ensure w e p :
  In e (ensure w p) -> e = MkdirSync p /\ existsBefore w p = false.
Proof.
  unfold ensure. destruct (existsBefore w p); [done|].
  by intros [<- | []].
Qed.

(** A directory is created only when it was not there before the run. *)
Lemma mkdir_only_when_absent w answers p :
  In (MkdirSync p) (trace (main w answers)) -> existsBefore w p = false.
Proof.
  rewrite main_trace. destruct (npmInit w) as [packageJson|]; unfold generated.
  all: destruct (language answers), (envFile answers), (docker answers); simpl.
  all: rewrite ?in_app_iff; simpl; rewrite ?in_app_iff; simpl.
  all: intros H; repeat destruct H as [H | H]; try done.
  all: by apply In_ensure in H as [[= ->] ?].
Qed.

(** C9, amended: at every event of a run, a written file finds its parent
    directory created earlier in the run or present before it started,
    and so does every created directory other than the project directory
    itself; the creation is skipped exactly for what is present. *)
Theorem parent_directory_ready (w : World) (answers : AnswerSet)
    (pre : list Event) (e : Event) (post : list Event) :
  trace (main w answers) = pre ++ e :: post ->
  match e with
  | WriteFileSync p _ =>
      exists d, dirname p = Some d /\ (In (MkdirSync d) pre \/ existsBefore w d = true)
  | MkdirSync p =>
      existsBefore w p = false
      /\ (p = projectDirOf w answers
          \/ exists d, dirname p = Some d
                       /\ (In (MkdirSync d) pre \/ existsBefore w d = true))
  | Exec _ => True
  end.
Proof.
  intros Hsplit.
  pose proof (parentsFirst_split _ _ _ _ (main_parentsFirst w answers) _ _ _ Hsplit) as He.
  destruct e as [p|p c|c]; [|exact He|exact I].
  split; [|exact He].
  apply (mkdir_only_when_absent w answers). rewrite Hsplit.
  apply in_app_iff. right. by left.
Qed.

Lemma parent_directory_ready_witness :
  exists d,
    dirname (Base "/home/user" </> "demo" </> ".env") = Some d
    /\ (In (MkdirSync d) (firstn 13 (trace (main demoWorld demoAnswers)))
        \/ existsBefore demoWorld d = true).
Proof.
  apply (parent_directory_ready demoWorld demoAnswers
           (firstn 13 (trace (main demoWorld demoAnswers)))
           (WriteFileSync (Base "/home/user" </> "demo" </> ".env") (Text envContent))
           (skipn 14 (trace (main demoWorld demoAnswers)))).
  by vm_compute.
Defined.

(** X5: on a run that starts where none of the directories exists, the parent
    directory of every written file is created earlier in the run. *)
Lemma fresh_run_creates_parents_first w answers pre p c post :
  (forall d, existsBefore w d = false) ->
  trace (main w answers) = pre ++ WriteFileSync p c :: post ->
  exists d, dirname p = Some d /\ In (MkdirSync d) pre.
Proof.
  intros Hfresh Hsplit.
  pose proof (parentsFirst_split _ _ _ _ (main_parentsFirst w answers) _ _ _ Hsplit)
    as (d & Hd & [Hin | Hpresent]).
  - by exists d.
  - by rewrite Hfresh in Hpresent.
Qed.

(** On such a run with a successful [npm init] the directories are created
    in the order of the script: the project directory, [src], the six
    folders, [utils]. *)
Lemma fresh_run_mkdirs w answers packageJson :
  (forall d, existsBefore w d = false) ->
  npmInit w = Some packageJson ->
  let srcDir := projectDirOf w answers </> "src" in
  mkdirs (trace (main w answers)) =
    [projectDirOf w answers; srcDir; srcDir </> "controllers"; srcDir </> "middlewares";
     srcDir </> "models"; srcDir </> "routes"; srcDir </> "tests"; srcDir </> "lib";
     srcDir </> "utils"].
Proof.
  intros Hfresh Hinit. rewrite main_trace, Hinit. unfold generated, ensure.
  rewrite !Hfresh.
  by destruct (language answers), (envFile answers), (docker answers).
Qed.

(** * Further properties of the two scripts *)

(** ** The shape of a run *)

Lemma mkdirs_app t1 t2 : mkdirs (t1 ++ t2) = mkdirs t1 ++ mkdirs t2.
Proof.
  induction t1 as [|[p|p c|c] t1 IH]; simpl; [done | by rewrite IH | done | done].
Qed.

Lemma mkdirs_ensure w p : mkdirs (ensure w p) = missing w [p].
Proof. unfold ensure, missing. simpl. by destruct (existsBefore w p). Qed.

Lemma missing_cons w p q ds :
  missing w (p :: q :: ds) = missing w [p] ++ missing w (q :: ds).
Proof. unfold missing. simpl. by destruct (existsBefore w p). Qed.

Lemma execs_app t1 t2 : execs (t1 ++ t2) = execs t1 ++ execs t2.
Proof.
  induction t1 as [|[p|p c|c] t1 IH]; simpl; [done | done | done | by rewrite IH].
Qed.

Lemma execs_ensure w p : execs (ensure w p) = [].
Proof. unfold ensure. by destruct (existsBefore w p). Qed.

Lemma execs_generated w answers projectDir packageJson :
  execs (generated w answers projectDir packageJson) = [].
Proof.
  unfold generated. rewrite !execs_app, !execs_ensure.
  by destruct (language answers), (envFile answers), (docker answers).
Qed.

Lemma below_child root n : below root (root </> n) = true.
Proof. simpl. by rewrite bool_decide_eq_true_2. Qed.

Lemma below_step root d n : below root d = true -> below root (d </> n) = true.
Proof. simpl. intros ->. apply orb_true_r. Qed.

Ltac distinct_path :=
  repeat (apply not_elem_of_cons; split; [congruence|]); apply not_elem_of_nil.

(** X2: when [npm init] fails the run stops there: it has at most created
    the project directory, it has written no file and started no
    installation; the directory it created stays behind. *)
Theorem failed_init_leaves_only_the_directory (w : World) (answers : AnswerSet) :
  npmInit w = None ->
  trace (main w answers) =
    ensure w (projectDirOf w answers) ++
    [Exec {| cmdline := "npm init -y"; workdir := projectDirOf w answers |}]
  /\ mkdirs (trace (main w answers)) = missing w [projectDirOf w answers]
  /\ writes (trace (main w answers)) = []
  /\ jobs (main w answers) = [].
Proof.
  intros Hinit. rewrite main_jobs, main_trace, Hinit.
  rewrite mkdirs_app, mkdirs_ensure, writes_app, writes_ensure.
  repeat split. simpl. by rewrite app_nil_r.
Qed.

Lemma failed_init_leaves_only_the_directory_witness :
  let offline :=
    {| cwd := "/tmp"; existsBefore := fun _ => false; npmInit := None;
       shell := fun _ => Rejected "offline" |} in
  trace (main offline demoAnswers) =
    ensure offline (projectDirOf offline demoAnswers) ++
    [Exec {| cmdline := "npm init -y"; workdir := projectDirOf offline demoAnswers |}]
  /\ mkdirs (trace (main offline demoAnswers)) =
     missing offline [projectDirOf offline demoAnswers]
  /\ writes (trace (main offline demoAnswers)) = []
  /\ jobs (main offline demoAnswers) = [].
Proof.
  apply (failed_init_leaves_only_the_directory
           {| cwd := "/tmp"; existsBefore := fun _ => false; npmInit := None;
              shell := fun _ => Rejected "offline" |} demoAnswers).
  reflexivity.
Defined.

Lemma no_exec_among t (P : ExecCall -> Prop) :
  execs t = [] ->
  Forall (fun e => match e with Exec c => P c | _ => True end) t.
Proof.
  induction t as [|[p|p c|c] t IH]; simpl; intros Ht;
    [apply Forall_nil_2 | apply Forall_cons; split; [done|by apply IH]..| discriminate Ht].
Qed.

(** X3: [npm init -y] is started in the project directory right after
    the guarded creation of that directory; every file of the run is
    written after it, and it is not started a second time. *)
Theorem npm_init_runs_once_before_any_write (w : World) (answers : AnswerSet) :
  let init := {| cmdline := "npm init -y"; workdir := projectDirOf w answers |} in
  exists rest,
    trace (main w answers) = ensure w (projectDirOf w answers) ++ Exec init :: rest
    /\ writes (ensure w (projectDirOf w answers)) = []
    /\ writes (trace (main w answers)) = writes rest
    /\ Forall (fun e => match e with
                        | Exec c => cmdline c <> "npm init -y"
                        | _ => True
                        end) rest.
Proof.
  cbv zeta. rewrite main_trace. eexists. split; [reflexivity|].
  rewrite writes_app, writes_ensure. split_and!; [done..|].
  apply no_exec_among.
  destruct (npmInit w); [by rewrite execs_generated | done].
Qed.

Lemma main_mkdirs w answers packageJson :
  npmInit w = Some packageJson ->
  mkdirs (trace (main w answers)) = missing w (layout (projectDirOf w answers)).
Proof.
  intros Hinit. rewrite main_trace, Hinit. unfold generated, layout, folders.
  cbn [map app]. rewrite !missing_cons.
  destruct (language answers), (envFile answers), (docker answers);
    repeat (rewrite ?mkdirs_app, ?mkdirs_ensure; cbn [mkdirs app isTypeScript]);
    by rewrite ?app_nil_r.
Qed.

(** X4: in a run that gets past [npm init] the directories created are
    exactly those of the project layout (project directory, [src], the six
    folders, [utils]) that were missing before the run, in layout order:
    nothing is created twice and nothing that exists is created again. *)
Theorem created_directories_are_the_missing_ones (w : World) (answers : AnswerSet)
    (packageJson : Manifest) :
  npmInit w = Some packageJson ->
  mkdirs (trace (main w answers)) = missing w (layout (projectDirOf w answers)).
Proof. apply main_mkdirs. Qed.

Lemma created_directories_are_the_missing_ones_witness :
  mkdirs (trace (main secondRun demoAnswers)) =
    missing secondRun (layout (projectDirOf secondRun demoAnswers)).
Proof.
  apply (created_directories_are_the_missing_ones secondRun demoAnswers
           {| scripts := None; otherFields := "private" |}).
  reflexivity.
Defined.

(** X6: every file of a run is written strictly below the project
    directory, and no path is written twice. *)
Theorem files_are_written_once_below_the_project (w : World) (answers : AnswerSet) :
  NoDup (map fst (writes (trace (main w answers))))
  /\ Forall (fun p => below (projectDirOf w answers) p = true)
       (map fst (writes (trace (main w answers)))).
Proof.
  destruct (npmInit w) as [packageJson|] eqn:Hinit.
  - rewrite (main_writes _ _ _ Hinit).
    destruct (language answers), (envFile answers), (docker answers); simpl; split.
    all: try (repeat (apply NoDup_cons; split; [distinct_path|]); apply NoDup_nil_2).
    all: repeat (apply Forall_cons; split;
                   [repeat first [apply below_child | apply below_step]|]);
         apply Forall_nil_2.
  - rewrite (main_writes_none _ _ Hinit). split; [apply NoDup_nil_2 | apply Forall_nil_2].
Qed.

(** ** Installations of a run *)

(** X7: a run that gets past [npm init] starts two installations, the
    runtime one first; both reach their [exec] call, both run in the
    project directory; the first command is [npm install] and the second
    [npm install -D], each followed by the entries of its package list in
    order, every entry the package name, [@] and the resolved version or
    null, and every entry a part of the command text. *)
Theorem install_commands_of_a_run (w : World) (answers : AnswerSet)
    (packageJson : Manifest) :
  npmInit w = Some packageJson ->
  exists runtime development,
    map outcome (jobs (main w answers)) = [Fulfilled runtime; Fulfilled development]
    /\ map packages (jobs (main w answers)) =
       [dependencies answers; devDependencies answers]
    /\ workdir runtime = projectDirOf w answers
    /\ workdir development = projectDirOf w answers
    /\ cmdline runtime =
       "npm install  " +:+ join " " (map (pinned w) (dependencies answers))
    /\ cmdline development =
       "npm install -D " +:+ join " " (map (pinned w) (devDependencies answers))
    /\ Forall (fun dep => includes (dep +:+ "@") (cmdline runtime) = true
                          /\ includes (pinned w dep) (cmdline runtime) = true)
         (dependencies answers)
    /\ Forall (fun dep => includes (dep +:+ "@") (cmdline development) = true
                          /\ includes (pinned w dep) (cmdline development) = true)
         (devDependencies answers).
Proof.
  intros Hinit. rewrite main_jobs, Hinit. unfold started. simpl.
  destruct (installDependencies_command w (dependencies answers)
              (projectDirOf w answers) false) as (runtime & -> & Hd1 & Hc1 & He1).
  destruct (installDependencies_command w (devDependencies answers)
              (projectDirOf w answers) true) as (development & -> & Hd2 & Hc2 & He2).
  exists runtime, development. split_and!; try done.
  all: eapply Forall_impl; [eassumption|]; intros dep Hdep; split; [|exact Hdep].
  all: apply includes_spec in Hdep as (pre & post & ->).
  all: apply includes_append_r; unfold pinned.
  all: rewrite <- (append_assoc dep "@").
  all: apply includes_append_l, includes_append_l, includes_self.
Qed.

Lemma install_commands_of_a_run_witness :
  exists runtime development,
    map outcome (jobs (main demoWorld demoAnswersTsDocker)) =
      [Fulfilled runtime; Fulfilled development]
    /\ map packages (jobs (main demoWorld demoAnswersTsDocker)) =
       [dependencies demoAnswersTsDocker; devDependencies demoAnswersTsDocker]
    /\ workdir runtime = projectDirOf demoWorld demoAnswersTsDocker
    /\ workdir development = projectDirOf demoWorld demoAnswersTsDocker
    /\ cmdline runtime =
       "npm install  " +:+
       join " " (map (pinned demoWorld) (dependencies demoAnswersTsDocker))
    /\ cmdline development =
       "npm install -D " +:+
       join " " (map (pinned demoWorld) (devDependencies demoAnswersTsDocker))
    /\ Forall (fun dep => includes (dep +:+ "@") (cmdline runtime) = true
                          /\ includes (pinned demoWorld dep) (cmdline runtime) = true)
         (dependencies demoAnswersTsDocker)
    /\ Forall (fun dep => includes (dep +:+ "@") (cmdline development) = true
                          /\ includes (pinned demoWorld dep) (cmdline development) = true)
         (devDependencies demoAnswersTsDocker).
Proof.
  apply (install_commands_of_a_run demoWorld demoAnswersTsDocker demoManifest).
  reflexivity.
Defined.

(** ** Dependencies against the generated texts *)

(** X8: the entry file and the runtime dependencies agree: express is
    always installed and always used; cors, morgan and dotenv occur in
    the entry file exactly when they are among the runtime dependencies,
    for both languages. *)
Theorem entry_file_uses_what_is_installed (answers : AnswerSet) :
  let entry := appFileContent (enableCORS answers) (morganLogging answers)
                 (envFile answers) (language answers) in
  includes "express" entry = bool_decide ("express" ∈ dependencies answers)
  /\ includes "cors" entry = bool_decide ("cors" ∈ dependencies answers)
  /\ includes "morgan" entry = bool_decide ("morgan" ∈ dependencies answers)
  /\ includes "dotenv" entry = bool_decide ("dotenv" ∈ dependencies answers)
  /\ bool_decide ("express" ∈ dependencies answers) = true.
Proof.
  destruct answers as [name [] [] handler [] [] dock]; by vm_compute.
Qed.

(** X9: the development dependencies follow the language and the runtime
    list: for TypeScript the compiler is installed and the type stubs of
    cors and morgan come exactly with those packages; for JavaScript
    nodemon is the only development dependency; dotenv never gets a stub;
    and no package is asked for twice. *)
Theorem type_stubs_follow_the_runtime_packages (answers : AnswerSet) :
  bool_decide ("typescript" ∈ devDependencies answers) = isTypeScript (language answers)
  /\ bool_decide ("@types/cors" ∈ devDependencies answers) =
     isTypeScript (language answers) && bool_decide ("cors" ∈ dependencies answers)
  /\ bool_decide ("@types/morgan" ∈ devDependencies answers) =
     isTypeScript (language answers) && bool_decide ("morgan" ∈ dependencies answers)
  /\ bool_decide ("@types/dotenv" ∈ devDependencies answers) = false
  /\ (if isTypeScript (language answers) then True
      else devDependencies answers = ["nodemon"])
  /\ NoDup (dependencies answers ++ devDependencies answers).
Proof.
  destruct answers as [name [] [] handler [] [] dock]; repeat split; try by vm_compute.
  all: apply (bool_decide_unpack _); by vm_compute.
Qed.

(** ** The generated texts *)

(** [endsWith] finds exactly the suffixes. *)
Lemma endsWith_spec suffix s :
  endsWith suffix s = true <-> exists pre, s = pre +:+ suffix.
Proof.
  induction s as [|c s IH]; simpl; case_decide as Heq.
  - split; [intros _; by exists ""|done].
  - split; [done|]. intros [[|c pre] Hpre]; [by destruct Heq|discriminate Hpre].
  - split; [intros _; by exists ""|done].
  - rewrite IH. split.
    + intros [pre ->]. by exists (String c pre).
    + intros [[|c' pre] Hpre]; [by destruct Heq|].
      rewrite append_cons in Hpre. injection Hpre as _ ->. by exists pre.
Qed.

(** X10: the entry file keeps to one module system.  For JavaScript it
    opens by requiring express, closes on the [module.exports]
    assignment and holds no import or export statement; for TypeScript it
    opens by importing express, closes on the export statements and holds
    no [require] call and no [module.exports]; whatever the toggles. *)
Theorem entry_file_keeps_to_one_module_system (enableCORS morganLogging envFile : bool) :
  let js := appFileContent enableCORS morganLogging envFile JavaScript in
  let ts := appFileContent enableCORS morganLogging envFile TypeScript in
  startsWith ("const express = require('express');" +:+ nl) js = true
  /\ endsWith "module.exports = { app, envMode };" js = true
  /\ includes "import " js = false
  /\ includes "export " js = false
  /\ startsWith ("import express from 'express';" +:+ nl) ts = true
  /\ endsWith "export { app, envMode }; export default app;" ts = true
  /\ includes "require(" ts = false
  /\ includes "module.exports" ts = false.
Proof. destruct enableCORS, morganLogging, envFile; by vm_compute. Qed.

(** X11: the Dockerfile fits the rest of the project: it sets the
    production environment exactly when an environment file was asked
    for; it exposes port 3000, the port [.env] sets and the entry file
    falls back to; and it starts [npm run dev], a script the manifest has
    for either language. *)
Theorem dockerfile_fits_the_project (envFile enableCORS morganLogging : bool)
    (l : Language) (packageJson : Manifest) :
  includes (nl +:+ "ENV NODE_ENV=production" +:+ nl) (dockerfileContent envFile) = envFile
  /\ includes (nl +:+ "EXPOSE 3000" +:+ nl) (dockerfileContent envFile) = true
  /\ startsWith ("PORT=3000" +:+ nl) envContent = true
  /\ includes "const port = process.env.PORT || 3000;"
       (appFileContent enableCORS morganLogging envFile l) = true
  /\ endsWith ("CMD [" +:+ q "npm" +:+ ", " +:+ q "run" +:+ ", " +:+ q "dev" +:+ "]" +:+ nl)
       (dockerfileContent envFile) = true
  /\ is_Some (spread (scripts (withScripts l packageJson)) !! "dev").
Proof.
  split_and!.
  1-5: destruct envFile, enableCORS, morganLogging, l; by vm_compute.
  destruct l; simpl; eexists; by simplify_map_eq.
Qed.

(** ** Resolved versions *)

Lemma trimStart_first s :
  from_option Ascii.is_space false (firstChar (trimStart s)) = false.
Proof.
  induction s as [|c s IH]; simpl; [done|].
  by destruct (Ascii.is_space c) eqn:Hc.
Qed.

Lemma trimEnd_first s :
  from_option Ascii.is_space false (firstChar s) = false ->
  from_option Ascii.is_space false (firstChar (trimEnd s)) = false.
Proof.
  destruct s as [|c s]; simpl; [done|]. intros Hc.
  destruct (trimEnd s); [by rewrite Hc|done].
Qed.

Lemma trimEnd_last s :
  from_option Ascii.is_space false (lastChar (trimEnd s)) = false.
Proof.
  induction s as [|c s IH]; simpl; [done|].
  destruct (trimEnd s) as [|c' s'] eqn:Hs.
  - by destruct (Ascii.is_space c) eqn:Hc.
  - exact IH.
Qed.

Lemma trimStart_fixed s :
  from_option Ascii.is_space false (firstChar s) = false -> trimStart s = s.
Proof. destruct s as [|c s]; simpl; [done|]. by intros ->. Qed.

Lemma trimEnd_fixed s :
  from_option Ascii.is_space false (lastChar s) = false -> trimEnd s = s.
Proof.
  induction s as [|c s IH]; [done|]. destruct s as [|c' s].
  - simpl. by intros ->.
  - intros Hlast. change (trimEnd (String c (String c' s)))
      with (match trimEnd (String c' s) with
            | EmptyString => if Ascii.is_space c then EmptyString else String c EmptyString
            | rest' => String c rest'
            end).
    by rewrite (IH Hlast).
Qed.

(** X12: a version the resolver returns is trimmed: it neither begins nor
    ends with white space (the line feed after the output of [npm show]
    is gone), and trimming it again changes nothing. *)
Theorem resolved_version_is_trimmed (w : World) (packageName version : string) :
  getLatestPackageVersion w packageName = Fulfilled (Some version) ->
  from_option Ascii.is_space false (firstChar version) = false
  /\ from_option Ascii.is_space false (lastChar version) = false
  /\ trim version = version.
Proof.
  rewrite getLatestPackageVersion_settles.
  destruct (shell w (npmShow packageName)) as [stdout|]; [|done].
  intros [= <-].
  assert (from_option Ascii.is_space false (firstChar (trim stdout)) = false) as Hfirst
    by apply trimEnd_first, trimStart_first.
  assert (from_option Ascii.is_space false (lastChar (trim stdout)) = false) as Hlast
    by apply trimEnd_last.
  repeat split; [done..|].
  unfold trim at 1. by rewrite (trimStart_fixed _ Hfirst), (trimEnd_fixed _ Hlast).
Qed.

Lemma resolved_version_is_trimmed_witness :
  from_option Ascii.is_space false (firstChar "1.2.3") = false
  /\ from_option Ascii.is_space false (lastChar "1.2.3") = false
  /\ trim "1.2.3" = "1.2.3".
Proof.
  apply (resolved_version_is_trimmed demoWorld "express" "1.2.3").
  reflexivity.
Defined.

(** ** Running the script again *)

(** Setting the scripts overwrites what an earlier setting left: the last
    language wins, and setting them twice is setting them once. *)
Lemma withScripts_overwrites l l' packageJson :
  withScripts l' (withScripts l packageJson) = withScripts l' packageJson.
Proof.
  destruct l, l'; unfold withScripts; simpl; f_equal; f_equal.
  all: apply map_eq; intros k.
  all: destruct (decide (k = "watch")) as [->|]; [by simplify_map_eq|].
  all: destruct (decide (k = "dev")) as [->|]; by simplify_map_eq.
Qed.

(** X13: the update of the manifest is idempotent and the last update
    wins: updating a manifest that was already updated, for the same or
    for the other language, gives what updating the original gives. *)
Theorem manifest_update_overwrites (l l' : Language) (packageJson : Manifest) :
  withScripts l (withScripts l packageJson) = withScripts l packageJson
  /\ withScripts l' (withScripts l packageJson) = withScripts l' packageJson.
Proof. split; apply withScripts_overwrites. Qed.

Ltac reach_run :=
  lazymatch goal with
  | |- Reaches _ (writeFileSync _ _ _) _ _ _ => eapply Reaches_write; reach_run
  | |- Reaches _ (unlessExists _ (mkdirSync _) _) _ _ _ =>
      eapply Reaches_ensure; [reach_run | distinct_path]
  | |- Reaches _ (exec _ _ _) _ _ _ => eapply Reaches_exec; reach_run
  | |- Reaches _ (start _ _ _ _ _) _ _ _ => eapply Reaches_start; reach_run
  | |- Reaches _ (initial _) _ _ _ => apply Reaches_initial
  end.

Ltac touched_path :=
  repeat first [apply list_elem_of_here | apply list_elem_of_further].

(** After a run that got past [npm init] every directory of the layout
    is on disk. *)
Lemma layout_present_after_run w answers packageJson :
  npmInit w = Some packageJson ->
  Forall (fun d => fs (main w answers) d = true) (layout (projectDirOf w answers)).
Proof.
  intros Hinit.
  assert (exists t touched js,
            Reaches w (main w answers) t touched js
            /\ Forall (fun d => d ∈ touched) (layout (projectDirOf w answers)))
    as (t & touched & js & Hreach & Htouched).
  { unfold main, script, projectDirOf, layout, folders. rewrite Hinit.
    destruct answers as [name lang cors handler env morgan dock].
    destruct lang, env, dock;
      cbv beta iota zeta delta
        [generate seq forEach folders when skip isTypeScript map app
         projectName language envFile docker enableCORS morganLogging];
      eexists _, _, _; (split; [reach_run|]);
      repeat (apply Forall_cons; split; [touched_path|]); apply Forall_nil_2. }
  apply Forall_forall. intros d Hd.
  rewrite (reach_fs _ _ _ _ _ Hreach), (bool_decide_eq_true_2 (d ∈ touched)).
  - apply orb_true_r.
  - by apply (proj1 (Forall_forall _ _) Htouched).
Qed.

Lemma missing_none w ds :
  Forall (fun d => existsBefore w d = true) ds -> missing w ds = [].
Proof.
  induction 1 as [|d ds Hd _ IH]; [done|]. unfold missing in *. simpl.
  by rewrite Hd.
Qed.

(** X14: running the script a second time on the same answers, where
    [npm init] recreates the manifest or keeps the one the first run
    wrote, creates no directory and writes every file of the first run
    again, to the same path, in the same order and with the same
    content. *)
Theorem second_run_rewrites_the_same_files (w : World) (answers : AnswerSet)
    (packageJson packageJson2 : Manifest) :
  npmInit w = Some packageJson ->
  packageJson2 = packageJson \/ packageJson2 = withScripts (language answers) packageJson ->
  mkdirs (trace (main (afterRun w answers packageJson2) answers)) = []
  /\ writes (trace (main (afterRun w answers packageJson2) answers)) =
     writes (trace (main w answers)).
Proof.
  intros Hinit Hsecond. split.
  - rewrite (main_mkdirs _ _ packageJson2) by reflexivity.
    apply missing_none. exact (layout_present_after_run _ _ _ Hinit).
  - rewrite (main_writes _ _ packageJson2) by reflexivity.
    rewrite (main_writes _ _ _ Hinit). cbv zeta.
    change (projectDirOf (afterRun w answers packageJson2) answers)
      with (projectDirOf w answers).
    destruct Hsecond as [-> | ->]; [done|]. by rewrite withScripts_overwrites.
Qed.

Lemma second_run_rewrites_the_same_files_witness :
  mkdirs (trace (main (afterRun demoWorld demoAnswers
                         (withScripts JavaScript demoManifest)) demoAnswers)) = []
  /\ writes (trace (main (afterRun demoWorld demoAnswers
                            (withScripts JavaScript demoManifest)) demoAnswers)) =
     writes (trace (main demoWorld demoAnswers)).
Proof.
  apply (second_run_rewrites_the_same_files demoWorld demoAnswers demoManifest
           (withScripts JavaScript demoManifest)).
  - reflexivity.
  - right. reflexivity.
Defined.

(** ** The second script ([src/unnamed/part_000]) *)

Lemma variant_main_reaches w answers :
  exists touched,
    Reaches w (Variant.main w answers)
      (ensure w (projectDirOf w answers) ++
       Exec {| cmdline := "npm init -y"; workdir := projectDirOf w answers |} ::
       match npmInit w with
       | None => []
       | Some packageJson =>
           Variant.generated w answers (projectDirOf w answers) packageJson
       end)
      touched
      match npmInit w with
      | None => []
      | Some _ => started w answers (projectDirOf w answers)
      end.
Proof.
  unfold Variant.main, Variant.script, projectDirOf, Variant.generated, started.
  destruct answers as [name lang cors handler env morgan dock].
  destruct (npmInit w) as [packageJson|].
  - destruct lang, env;
      cbv beta iota zeta delta
        [Variant.generate seq forEach folders when skip isTypeScript
         projectName language envFile docker enableCORS morganLogging];
      eexists; (eapply Reaches_as; [reach_run | |]);
      simpl; rewrite <- ?app_assoc; reflexivity.
  - cbv beta iota zeta delta [seq skip projectName].
    eexists. eapply Reaches_as; [reach_run | |]; reflexivity.
Qed.

Lemma variant_main_trace w answers :
  trace (Variant.main w answers) =
    ensure w (projectDirOf w answers) ++
    Exec {| cmdline := "npm init -y"; workdir := projectDirOf w answers |} ::
    match npmInit w with
    | None => []
    | Some packageJson => Variant.generated w answers (projectDirOf w answers) packageJson
    end.
Proof. destruct (variant_main_reaches w answers) as [touched [Ht _ _]]. exact Ht. Qed.

Lemma variant_main_jobs w answers :
  jobs (Variant.main w answers) =
    match npmInit w with
    | None => []
    | Some _ => started w answers (projectDirOf w answers)
    end.
Proof. destruct (variant_main_reaches w answers) as [touched [_ Hj _]]. exact Hj. Qed.

Lemma variant_main_writes w answers packageJson :
  npmInit w = Some packageJson ->
  writes (trace (Variant.main w answers)) =
    let projectDir := projectDirOf w answers in
    [(projectDir </> "package.json", Json (TsOnly.withScripts packageJson));
     (projectDir </> "src" </> "utils" </> "errorHandler.ts", Text errorHandlerContent);
     (projectDir </> "src" </> "app.ts",
      Text (Variant.appFileContent (enableCORS answers) (morganLogging answers)
              (envFile answers)))] ++
    (if envFile answers then [(projectDir </> ".env", Text envContent)] else []) ++
    (if isTypeScript (language answers)
     then [(projectDir </> "tsconfig.json", Text tsconfigContent)] else []) ++
    [(projectDir </> "src" </> "middlewares" </> "error.ts", Text errorMiddlewareContent)].
Proof.
  intros Hinit. rewrite variant_main_trace, Hinit. unfold Variant.generated.
  rewrite !writes_app, !writes_ensure. simpl.
  rewrite !writes_app, !writes_ensure. simpl.
  by destruct (language answers), (envFile answers).
Qed.

Lemma variant_main_writes_none w answers :
  npmInit w = None -> writes (trace (Variant.main w answers)) = [].
Proof.
  intros Hinit. rewrite variant_main_trace, Hinit, writes_app, writes_ensure. done.
Qed.

(** X15: the second script never looks at [docker] or
    [basicErrorHandler]: two runs whose answers differ only there are the
    same run, and no run writes a Dockerfile, whatever [docker] says. *)
Theorem variant_ignores_docker (w : World) (a1 a2 : AnswerSet) :
  projectName a1 = projectName a2 -> language a1 = language a2 ->
  enableCORS a1 = enableCORS a2 -> envFile a1 = envFile a2 ->
  morganLogging a1 = morganLogging a2 ->
  Variant.main w a1 = Variant.main w a2
  /\ writesNamed "Dockerfile" (trace (Variant.main w a1)) = [].
Proof.
  destruct a1 as [n1 l1 c1 b1 e1 m1 d1], a2 as [n2 l2 c2 b2 e2 m2 d2]. simpl.
  intros -> -> -> -> ->. split; [reflexivity|]. unfold writesNamed.
  destruct (npmInit w) as [packageJson|] eqn:Hinit.
  - rewrite (variant_main_writes _ _ _ Hinit). by destruct l2, e2.
  - by rewrite (variant_main_writes_none _ _ Hinit).
Qed.

Lemma variant_ignores_docker_witness :
  Variant.main demoWorld demoAnswersTsDocker =
    Variant.main demoWorld
      {| projectName := "demo"; language := TypeScript; enableCORS := true;
         basicErrorHandler := false; envFile := true; morganLogging := false;
         docker := false |}
  /\ writesNamed "Dockerfile" (trace (Variant.main demoWorld demoAnswersTsDocker)) = [].
Proof.
  apply (variant_ignores_docker demoWorld demoAnswersTsDocker
           {| projectName := "demo"; language := TypeScript; enableCORS := true;
              basicErrorHandler := false; envFile := true; morganLogging := false;
              docker := false |}); reflexivity.
Defined.

(** X16: the two scripts go through the same motions: on the same
    answers in the same world they create the same directories in the
    same order and start the same two installations, with the same
    packages, directory and resulting commands. *)
Theorem variant_same_directories_and_installs (w : World) (answers : AnswerSet) :
  mkdirs (trace (Variant.main w answers)) = mkdirs (trace (main w answers))
  /\ jobs (Variant.main w answers) = jobs (main w answers).
Proof.
  rewrite variant_main_jobs, main_jobs, variant_main_trace, main_trace. split; [|done].
  destruct (npmInit w) as [packageJson|]; [|done].
  unfold Variant.generated, generated.
  destruct (language answers), (envFile answers), (docker answers);
    repeat (rewrite ?mkdirs_app, ?mkdirs_ensure; cbn [mkdirs app isTypeScript]);
    reflexivity.
Qed.

(** X17: for TypeScript answers without Docker the two scripts write the
    same files: the same paths in the same order, and, the entry file
    [app.ts] apart, the same contents. *)
Theorem variant_agrees_on_typescript (w : World) (answers : AnswerSet) :
  language answers = TypeScript -> docker answers = false ->
  let notEntry := fun pc : path * FileContent =>
                    negb (bool_decide (basename (fst pc) = "app.ts")) in
  map fst (writes (trace (Variant.main w answers))) =
    map fst (writes (trace (main w answers)))
  /\ List.filter notEntry (writes (trace (Variant.main w answers))) =
     List.filter notEntry (writes (trace (main w answers))).
Proof.
  intros Hlang Hdocker. cbv zeta.
  destruct (npmInit w) as [packageJson|] eqn:Hinit.
  - rewrite (variant_main_writes _ _ _ Hinit), (main_writes _ _ _ Hinit).
    rewrite Hlang, Hdocker. by destruct (envFile answers).
  - by rewrite (variant_main_writes_none _ _ Hinit), (main_writes_none _ _ Hinit).
Qed.

Lemma variant_agrees_on_typescript_witness :
  let answers :=
    {| projectName := "demo"; language := TypeScript; enableCORS := true;
       basicErrorHandler := true; envFile := true; morganLogging := true;
       docker := false |} in
  let notEntry := fun pc : path * FileContent =>
                    negb (bool_decide (basename (fst pc) = "app.ts")) in
  map fst (writes (trace (Variant.main demoWorld answers))) =
    map fst (writes (trace (main demoWorld answers)))
  /\ List.filter notEntry (writes (trace (Variant.main demoWorld answers))) =
     List.filter notEntry (writes (trace (main demoWorld answers))).
Proof.
  apply (variant_agrees_on_typescript demoWorld
           {| projectName := "demo"; language := TypeScript; enableCORS := true;
              basicErrorHandler := true; envFile := true; morganLogging := true;
              docker := false |}); reflexivity.
Defined.

(** X18: for JavaScript answers the second script still generates
    TypeScript sources ([errorHandler.ts], [app.ts], [error.ts], the
    entry file in import syntax) and points the [dev] script at
    [src/app.ts], while it writes no [tsconfig.json] and asks for no
    compiler: nodemon is the only development dependency. *)
Theorem variant_javascript_gets_typescript_sources (w : World) (answers : AnswerSet)
    (packageJson : Manifest) :
  npmInit w = Some packageJson -> language answers = JavaScript ->
  map (fun pc => basename (fst pc)) (writes (trace (Variant.main w answers))) =
    ["package.json"; "errorHandler.ts"; "app.ts"] ++
    (if envFile answers then [".env"] else []) ++ ["error.ts"]
  /\ startsWith (nl +:+ "import express from 'express';" +:+ nl)
       (Variant.appFileContent (enableCORS answers) (morganLogging answers)
          (envFile answers)) = true
  /\ spread (scripts (TsOnly.manifest answers packageJson)) !! "dev" = Some "nodemon src/app.ts"
  /\ map packages (jobs (Variant.main w answers)) = [dependencies answers; ["nodemon"]].
Proof.
  intros Hinit Hlang.
  rewrite (variant_main_writes _ _ _ Hinit), variant_main_jobs, Hinit.
  unfold started, devDependencies. rewrite Hlang. split_and!.
  - by destruct (envFile answers).
  - by destruct (enableCORS answers), (morganLogging answers), (envFile answers).
  - unfold TsOnly.manifest, TsOnly.withScripts. simpl. by simplify_map_eq.
  - done.
Qed.

Lemma variant_javascript_gets_typescript_sources_witness :
  map (fun pc => basename (fst pc)) (writes (trace (Variant.main demoWorld demoAnswers))) =
    ["package.json"; "errorHandler.ts"; "app.ts"] ++
    (if envFile demoAnswers then [".env"] else []) ++ ["error.ts"]
  /\ startsWith (nl +:+ "import express from 'express';" +:+ nl)
       (Variant.appFileContent (enableCORS demoAnswers) (morganLogging demoAnswers)
          (envFile demoAnswers)) = true
  /\ spread (scripts (TsOnly.manifest demoAnswers demoManifest)) !! "dev" =
     Some "nodemon src/app.ts"
  /\ map packages (jobs (Variant.main demoWorld demoAnswers)) =
     [dependencies demoAnswers; ["nodemon"]].
Proof.
  apply (variant_javascript_gets_typescript_sources demoWorld demoAnswers demoManifest);
    reflexivity.
Defined.

(** X19: the entry file of the second script agrees with the runtime
    dependencies as the first one does: cors, morgan and dotenv occur in
    it exactly when they are installed; it is always in import syntax,
    with no [require] call, and closes on the default export. *)
Theorem variant_entry_file_uses_what_is_installed (answers : AnswerSet) :
  let entry := Variant.appFileContent (enableCORS answers) (morganLogging answers)
                 (envFile answers) in
  includes "cors" entry = bool_decide ("cors" ∈ dependencies answers)
  /\ includes "morgan" entry = bool_decide ("morgan" ∈ dependencies answers)
  /\ includes "dotenv" entry = bool_decide ("dotenv" ∈ dependencies answers)
  /\ includes "dotenv.config();" entry = envFile answers
  /\ includes "require(" entry = false
  /\ endsWith ("export default app;" +:+ nl) entry = true.
Proof.
  destruct answers as [name lang [] handler [] [] dock]; by vm_compute.
Qed.

Lemma variant_parentsFirst w answers :
  parentsFirst w (projectDirOf w answers) [] (trace (Variant.main w answers)).
Proof.
  rewrite variant_main_trace. destruct (npmInit w) as [packageJson|].
  - unfold Variant.generated, projectDirOf.
    destruct (language answers), (envFile answers); simpl; parents_first.
  - unfold projectDirOf. parents_first.
Qed.

(** X20: in the second script too, a written file finds its parent
    directory created earlier in the run or present before it started. *)
Theorem variant_parent_directory_ready (w : World) (answers : AnswerSet)
    (pre : list Event) (p : path) (c : FileContent) (post : list Event) :
  trace (Variant.main w answers) = pre ++ WriteFileSync p c :: post ->
  exists d, dirname p = Some d /\ (In (MkdirSync d) pre \/ existsBefore w d = true).
Proof.
  intros Hsplit.
  exact (parentsFirst_split _ _ _ _ (variant_parentsFirst w answers) _ _ _ Hsplit).
Qed.

Lemma variant_parent_directory_ready_witness :
  exists d,
    dirname (Base "/srv/www" </> "demo" </> "package.json") = Some d
    /\ (In (MkdirSync d) (firstn 1 (trace (Variant.main secondRun demoAnswers)))
        \/ existsBefore secondRun d = true).
Proof.
  apply (variant_parent_directory_ready secondRun demoAnswers
           (firstn 1 (trace (Variant.main secondRun demoAnswers)))
           (Base "/srv/www" </> "demo" </> "package.json")
           (Json (TsOnly.withScripts {| scripts := None; otherFields := "private" |}))
           (skipn 2 (trace (Variant.main secondRun demoAnswers)))).
  by vm_compute.
Defined.

(** ** Across the generated files *)

(** X21: the error middleware is written once, to a file named after the
    language ([error.js] or [error.ts]), but its text is the same for
    both and is TypeScript (typed parameters, type imports).  What it
    imports is there: the error handler file exports the class
    [ErrorHandler], and the entry file exports [envMode], for both
    languages and all toggles. *)
Theorem error_middleware_imports_what_is_exported (w : World) (answers : AnswerSet)
    (packageJson : Manifest) :
  npmInit w = Some packageJson ->
  let name := if isTypeScript (language answers) then "error.ts" else "error.js" in
  let entry := appFileContent (enableCORS answers) (morganLogging answers)
                 (envFile answers) (language answers) in
  writesNamed name (trace (main w answers)) =
    [(projectDirOf w answers </> "src" </> "middlewares" </> name,
      Text errorMiddlewareContent)]
  /\ includes "(err: ErrorHandler, req: Request, res: Response, next: NextFunction)"
       errorMiddlewareContent = true
  /\ includes "import { ErrorHandler } from '../utils/errorHandler';"
       errorMiddlewareContent = true
  /\ startsWith "export class ErrorHandler " errorHandlerContent = true
  /\ includes "import { envMode } from '../app';" errorMiddlewareContent = true
  /\ (endsWith "module.exports = { app, envMode };" entry
      || endsWith "export { app, envMode }; export default app;" entry) = true.
Proof.
  intros Hinit. cbv zeta. unfold writesNamed. rewrite (main_writes _ _ _ Hinit).
  split_and!; try by vm_compute.
  - by destruct (language answers), (envFile answers), (docker answers).
  - destruct (language answers), (enableCORS answers), (morganLogging answers),
      (envFile answers); by vm_compute.
Qed.

Lemma error_middleware_imports_what_is_exported_witness :
  let name := if isTypeScript (language demoAnswers) then "error.ts" else "error.js" in
  let entry := appFileContent (enableCORS demoAnswers) (morganLogging demoAnswers)
                 (envFile demoAnswers) (language demoAnswers) in
  writesNamed name (trace (main demoWorld demoAnswers)) =
    [(projectDirOf demoWorld demoAnswers </> "src" </> "middlewares" </> name,
      Text errorMiddlewareContent)]
  /\ includes "(err: ErrorHandler, req: Request, res: Response, next: NextFunction)"
       errorMiddlewareContent = true
  /\ includes "import { ErrorHandler } from '../utils/errorHandler';"
       errorMiddlewareContent = true
  /\ startsWith "export class ErrorHandler " errorHandlerContent = true
  /\ includes "import { envMode } from '../app';" errorMiddlewareContent = true
  /\ (endsWith "module.exports = { app, envMode };" entry
      || endsWith "export { app, envMode }; export default app;" entry) = true.
Proof.
  apply (error_middleware_imports_what_is_exported demoWorld demoAnswers demoManifest).
  reflexivity.
Defined.

(** X22: the project name only says where the files go: with another
    name the run writes the same texts to files of the same names, in the
    same order, below the other project directory, and asks for the same
    packages. *)
Theorem project_name_only_relocates (w : World) (answers : AnswerSet) (name : string) :
  texts (writes (trace (main w (renamed answers name)))) =
    texts (writes (trace (main w answers)))
  /\ map packages (jobs (main w (renamed answers name))) =
     map packages (jobs (main w answers))
  /\ Forall (fun p => below (Base (cwd w) </> name) p = true)
       (map fst (writes (trace (main w (renamed answers name))))).
Proof.
  rewrite !main_jobs. destruct (npmInit w) as [packageJson|] eqn:Hinit.
  - rewrite !(main_texts _ _ _ Hinit), (main_writes _ _ _ Hinit).
    split_and!; [done..|].
    unfold projectDirOf. simpl.
    destruct (language answers), (envFile answers), (docker answers); simpl.
    all: repeat (apply Forall_cons; split;
                   [repeat first [apply below_child | apply below_step]|]);
         apply Forall_nil_2.
  - rewrite !(main_writes_none _ _ Hinit). split_and!; [done..|apply Forall_nil_2].
Qed.

Lemma fresh_run_creates_parents_first_witness :
  exists d,
    dirname (Base "/home/user" </> "demo" </> "src" </> "app.js") = Some d
    /\ In (MkdirSync d) (firstn 12 (trace (main demoWorld demoAnswers))).
Proof.
  apply (fresh_run_creates_parents_first demoWorld demoAnswers
           (firstn 12 (trace (main demoWorld demoAnswers)))
           (Base "/home/user" </> "demo" </> "src" </> "app.js")
           (Text (appFileContent true false true JavaScript))
           (skipn 13 (trace (main demoWorld demoAnswers)))).
  - reflexivity.
  - by vm_compute.
Defined.
